(** * 8bitdo_update: the enumeration sweeper and the flash orchestrator

    A shallow embedding of [8bitdo_scraper.py] and [8bitdo_updater.py].
    Both scripts are sequences of blocking calls (HTTP requests, child
    processes, prompts, sleeps).  Every such call is embedded as a step of
    a small process monad: it records an event, consults the outside world
    (a record of oracles) for what the call produced, and either returns,
    raises a Python exception or exits the process. *)

From Stdlib Require Import Ascii QArith Qcanon.
From stdpp Require Import base numbers list strings gmap sorting.

Local Open Scope Z_scope.

(** ** Python values and built-ins used by the two scripts *)

Module Py.

(** Exception classes the scripts raise or name in a handler. *)
Inductive exn : Set :=
| KeyboardInterrupt
| EOFError
| OSError
| FileNotFoundError
| TimeoutError
| SocketTimeout          (* socket.timeout *)
| URLError               (* urllib.error.URLError *)
| HTTPError              (* urllib.error.HTTPError *)
| RequestException       (* requests.RequestException *)
| CalledProcessError     (* subprocess.CalledProcessError *)
| ValueError
| JSONDecodeError        (* json.JSONDecodeError *)
| TypeError
| KeyError
| IndexError
| AttributeError.

#[global] Instance exn_eq_dec : EqDecision exn.
Proof. solve_decision. Defined.

(** Proper ancestors of a class among the classes above. *)
Definition bases (e : exn) : list exn :=
  match e with
  | FileNotFoundError | TimeoutError | SocketTimeout
  | URLError | RequestException => [OSError]
  | HTTPError => [URLError; OSError]
  | JSONDecodeError => [ValueError]
  | _ => []
  end.

Definition isinstance (e c : exn) : bool :=
  bool_decide (e = c) || bool_decide (c ∈ bases e).

(** [except (c1, c2, ...)] *)
Definition caught_by (cs : list exn) (e : exn) : bool :=
  existsb (isinstance e) cs.

(** Pure code that may raise: [exn + A], sequenced by [x ← m; k]. *)
#[global] Instance raise_bind : MBind (sum exn) := λ A B k m,
  match m with inl e => inl e | inr a => k a end.

(** What [json.loads] returns.  Numbers are the integers; a [JObj]
    carries the items of the dict. *)
#[warnings="-register-all"]
Inductive json : Type :=
| JNull
| JBool (b : bool)
| JNum (n : Z)
| JStr (s : string)
| JArr (l : list json)
| JObj (kv : list (string * json)).

(** [bool(v)] *)
Definition truthy (v : json) : bool :=
  match v with
  | JNull => false
  | JBool b => b
  | JNum n => negb (n =? 0)
  | JStr s => negb (bool_decide (s = ""))
  | JArr l => negb (bool_decide (length l = 0%nat))
  | JObj kv => negb (bool_decide (length kv = 0%nat))
  end.

(** [v or d] *)
Definition or_else (v d : json) : json := if truthy v then v else d.

Fixpoint assoc (k : string) (kv : list (string * json)) : option json :=
  match kv with
  | [] => None
  | (k', v) :: kv' => if bool_decide (k = k') then Some v else assoc k kv'
  end.

(** [v.get(k, d)]: only a dict has the method. *)
Definition get (k : string) (d : json) (v : json) : exn + json :=
  match v with
  | JObj kv => inr (default d (assoc k kv))
  | _ => inl AttributeError
  end.

(** [v == 1] *)
Definition eq_one (v : json) : bool :=
  match v with
  | JNum n => n =? 1
  | JBool b => b
  | _ => false
  end.

(** *** str

    A str is a [string], the sequence of its characters; [isspace],
    [lower] and [strip] are Python's on ASCII text, and the order of
    [String.compare] is the order of [<] on str. *)

Definition code (c : ascii) : N := N_of_ascii c.

(** [str.isspace] on one ASCII character. *)
Definition isspace (c : ascii) : bool :=
  let n := code c in
  ((9 <=? n) && (n <=? 13) || (28 <=? n) && (n <=? 32))%N.

Definition lower_char (c : ascii) : ascii :=
  let n := code c in
  if ((65 <=? n) && (n <=? 90))%N then ascii_of_N (n + 32) else c.

(** [s.lower()], on ASCII letters. *)
Fixpoint lower (s : string) : string :=
  match s with
  | EmptyString => EmptyString
  | String c s' => String (lower_char c) (lower s')
  end.

Fixpoint lstrip (s : string) : string :=
  match s with
  | EmptyString => EmptyString
  | String c s' => if isspace c then lstrip s' else s
  end.

Fixpoint rstrip (s : string) : string :=
  match s with
  | EmptyString => EmptyString
  | String c s' =>
      match rstrip s' with
      | EmptyString => if isspace c then EmptyString else String c EmptyString
      | r => String c r
      end
  end.

(** [s.strip()] *)
Definition strip (s : string) : string := rstrip (lstrip s).

(** [sub in s] *)
Fixpoint contains (sub s : string) : bool :=
  String.prefix sub s ||
  match s with
  | EmptyString => false
  | String _ s' => contains sub s'
  end.

(** [s.split(sep)] for a non-empty [sep]: [skip] characters of a
    separator just matched are still to be passed over, [cur] is the
    current piece, reversed. *)
Fixpoint split_go (sep : string) (skip : nat) (cur : string) (s : string)
  : list string :=
  match s with
  | EmptyString => [String.rev cur]
  | String c s' =>
      match skip with
      | S k => split_go sep k cur s'
      | O =>
          if String.prefix sep s
          then String.rev cur :: split_go sep (String.length sep - 1) EmptyString s'
          else split_go sep 0 (String c cur) s'
      end
  end.

Definition split (sep s : string) : list string := split_go sep 0 EmptyString s.

(** *** int(...) *)

Definition digit (c : ascii) : option Z :=
  let n := code c in
  if ((48 <=? n) && (n <=? 57))%N then Some (Z.of_N n - 48) else None.

(** Digits with single underscores between them, as [int] accepts:
    [prev] tells whether the previous character was a digit. *)
Fixpoint digits_go (acc : Z) (prev : bool) (s : string) : option Z :=
  match s with
  | EmptyString => if prev then Some acc else None
  | String c s' =>
      match digit c with
      | Some d => digits_go (10 * acc + d) true s'
      | None =>
          if bool_decide (c = "_"%char) && prev
          then digits_go acc false s'
          else None
      end
  end.

(** [int(s)] for a str: surrounding whitespace, an optional sign, decimal
    digits. *)
Definition int_of_str (s : string) : option Z :=
  match strip s with
  | String "-" r => Z.opp <$> digits_go 0 false r
  | String "+" r => digits_go 0 false r
  | r => digits_go 0 false r
  end.

(** [int(v)] *)
Definition int (v : json) : exn + Z :=
  match v with
  | JNum n => inr n
  | JBool b => inr (if b then 1 else 0)
  | JStr s => match int_of_str s with Some n => inr n | None => inl ValueError end
  | JNull | JArr _ | JObj _ => inl TypeError
  end.

(** [len(v)] *)
Definition len (v : json) : exn + Z :=
  match v with
  | JArr l => inr (Z.of_nat (length l))
  | JObj kv => inr (Z.of_nat (length kv))
  | JStr s => inr (Z.of_nat (String.length s))
  | JNull | JBool _ | JNum _ => inl TypeError
  end.

(** [v[i]] for [0 <= i < len(v)]: a dict of JSON has no integer key. *)
Definition item (v : json) (i : Z) : exn + json :=
  match v with
  | JArr l => match l !! Z.to_nat i with Some x => inr x | None => inl IndexError end
  | JStr s =>
      match String.get (Z.to_nat i) s with
      | Some c => inr (JStr (String c EmptyString))
      | None => inl IndexError
      end
  | JObj _ => inl KeyError
  | JNull | JBool _ | JNum _ => inl TypeError
  end.

(** [v / 1024] *)
Definition divisible (v : json) : exn + unit :=
  match v with
  | JNum _ | JBool _ => inr tt
  | _ => inl TypeError
  end.

(** [v.lower()] *)
Definition lower_of (v : json) : exn + string :=
  match v with
  | JStr s => inr (lower s)
  | _ => inl AttributeError
  end.

(** ["\n"] and [c * n] *)
Definition nl : string := String "010" EmptyString.

Fixpoint times (c : string) (n : nat) : string :=
  match n with
  | O => EmptyString
  | S n' => c +:+ times c n'
  end.

(** [f"{s:2}"]: [s] padded on the right to two characters. *)
Definition pad2 (s : string) : string :=
  s +:+ times " " (2 - String.length s).

(** [Path(p).name] *)
Definition path_name (p : string) : string :=
  List.last (filter (λ c, c ≠ "" ∧ c ≠ ".") (split "/" p)) "".

(** [for x in v]: the elements a loop over [v] visits. *)
Definition iter (v : json) : exn + list json :=
  match v with
  | JArr l => inr l
  | JObj kv => inr (JStr <$> kv.*1)
  | JStr s => inr ((λ c, JStr (String c EmptyString)) <$> String.list_ascii_of_string s)
  | JNull | JBool _ | JNum _ => inl TypeError
  end.

End Py.

(** ** The process monad *)

Module Proc.
Import Py.

(** An interpolated f-string is kept as its pieces: the literal text and
    the values placed in it (their rendering by [str] or by a format
    specification is the work of the interpreter). *)
Inductive frag : Type :=
| Lit (s : string)
| FStr (s : string)
| FInt (n : Z)
| FVal (v : json)
| FExn (e : exn)
| FKb (v : json).          (* [{v / 1024:.1f}] *)

Definition text := list frag.

Inductive cell : Type := CStr (s : string) | CInt (n : Z).

#[global] Instance cell_eq_dec : EqDecision cell.
Proof. solve_decision. Defined.

(** What the process does to the outside world, in program order. *)
Inductive event : Type :=
| EvPrint (m : text)                      (* print(m) *)
| EvStderr (m : text)                     (* print(m, file=sys.stderr) *)
| EvPrompt (m : text)                     (* input(m) *)
| EvPost (url : string) (type : Z) (beta : option string) (timeout : Qc)
| EvGet (url : string) (timeout : Qc)
| EvSleep (d : Qc)                        (* time.sleep(d) *)
| EvRun (argv : list string)              (* subprocess.run(argv, ...) *)
| EvWriteCsv (path : string) (rows : list (list cell))
| EvWriteFile (path : string) (content : string)
| EvRemove (path : string).               (* os.remove(path) *)

Definition is_post (e : event) : bool :=
  match e with EvPost _ _ _ _ => true | _ => false end.

Definition is_get (e : event) : bool :=
  match e with EvGet _ _ => true | _ => false end.

Definition is_csv (e : event) : bool :=
  match e with EvWriteCsv _ _ => true | _ => false end.

(** One [input()] call: a line typed by the user, or Ctrl-C while the
    call blocks.  An exhausted list is end of file. *)
Inductive stroke : Type := Line (s : string) | CtrlC.

Inductive outcome (A : Type) : Type :=
| Ret (a : A)
| Raise (e : exn)
| Exit (status : Z).       (* sys.exit(status) *)
Arguments Ret {A} a.
Arguments Raise {A} e.
Arguments Exit {A} status.

(** A computation reads from standard input and yields the events it
    caused, what is left of the input, and how it ended. *)
Definition M (A : Type) : Type := list stroke → list event * list stroke * outcome A.

Definition ret {A} (a : A) : M A := λ i, ([], i, Ret a).
Definition raise {A} (e : exn) : M A := λ i, ([], i, Raise e).
Definition sys_exit {A} (status : Z) : M A := λ i, ([], i, Exit status).
Definition emit (e : event) : M unit := λ i, ([e], i, Ret tt).

Definition bind {A B} (m : M A) (k : A → M B) : M B := λ i,
  match m i with
  | (t, i', Ret a) => let '(t', i'', r) := k a i' in (t ++ t', i'', r)
  | (t, i', Raise e) => (t, i', Raise e)
  | (t, i', Exit c) => (t, i', Exit c)
  end.

(** [try: m  except cs as e: h e] *)
Definition try_except {A} (m : M A) (cs : list exn) (h : exn → M A) : M A := λ i,
  match m i with
  | (t, i', Raise e) =>
      if caught_by cs e
      then let '(t', i'', r) := h e i' in (t ++ t', i'', r)
      else (t, i', Raise e)
  | r => r
  end.

Definition lift {A} (x : exn + A) : M A :=
  match x with inl e => raise e | inr a => ret a end.

Definition print (m : text) : M unit := emit (EvPrint m).

(** [time.sleep(d)]: a negative length is a [ValueError]. *)
Definition sleep (d : Qc) : M unit :=
  if decide (d < 0)%Qc then raise ValueError else emit (EvSleep d).

(** [input(m)] *)
Definition input (m : text) : M string := λ i,
  match i with
  | [] => ([EvPrompt m], [], Raise EOFError)
  | Line s :: i' => ([EvPrompt m], i', Ret s)
  | CtrlC :: i' => ([EvPrompt m], i', Raise KeyboardInterrupt)
  end.

(** [while True: s = input(m).strip(); ...]: one round reads a line and
    then either returns from the function ([Some]) or starts over
    ([None]); the round itself reads nothing more. *)
Fixpoint ask_until {A} (m : text)
    (round : string → list event * outcome (option A)) (i : list stroke)
  : list event * list stroke * outcome A :=
  match i with
  | [] => ([EvPrompt m], [], Raise EOFError)
  | CtrlC :: i' => ([EvPrompt m], i', Raise KeyboardInterrupt)
  | Line s :: i' =>
      match round (strip s) with
      | (t, Ret (Some a)) => (EvPrompt m :: t, i', Ret a)
      | (t, Ret None) =>
          let '(t', i'', r) := ask_until m round i' in
          (EvPrompt m :: t ++ t', i'', r)
      | (t, Raise e) => (EvPrompt m :: t, i', Raise e)
      | (t, Exit c) => (EvPrompt m :: t, i', Exit c)
      end
  end.

(** What a request or a child process whose output is parsed as JSON
    brings back: text that [json.loads] accepts, text that it rejects,
    or an exception (for a child run with [check=True], a non-zero
    status is [CalledProcessError]). *)
Inductive reply : Type := Json (j : json) | NotJson | Fails (e : exn).

(** How the interpreter ends: an exit status, or an exception that
    reached the top and is reported with a stack trace. *)
Inductive ending : Type := Exited (status : Z) | Traceback (e : exn).

Definition finish {A} (o : outcome A) : ending :=
  match o with
  | Ret _ => Exited 0
  | Exit c => Exited c
  | Raise e => Traceback e
  end.

Definition trace {A} (r : list event * list stroke * outcome A) : list event := r.1.1.
Definition result {A} (r : list event * list stroke * outcome A) : outcome A := r.2.

(** Every event of a computation satisfies [P], whatever the input. *)
Definition emits {A} (P : event → Prop) (m : M A) : Prop :=
  ∀ i, Forall P (trace (m i)).

End Proc.

Declare Scope proc_scope.
Delimit Scope proc_scope with proc.
Notation "'let*' x ':=' m 'in' k" := (Proc.bind m (λ x, k))
  (at level 10, x name, m at level 100, k at level 200) : proc_scope.
Notation "m >> k" := (Proc.bind m (λ _, k))
  (at level 90, right associativity) : proc_scope.

(** ** 8bitdo_scraper.py *)

Module Scraper.
Import Py Proc.
Local Open Scope proc_scope.

Definition BASE_URL : string := "http://dl.8bitdo.com:8080/firmware/select".

(** The endpoint as the sweep meets it: the reply to the [n]-th request
    (counted from 0) that carries a given Type value. *)
Definition endpoint : Type := Z → nat → reply.

(** The parsed command line. *)
Record args : Type := {
  start : Z;
  max : Z;
  beta : bool;
  sleep_s : Qc;      (* --sleep *)
  timeout : Qc;
  out : string
}.

Definition defaults : args :=
  {| start := 0; max := 200; beta := false;
     sleep_s := Q2Qc (3 # 100); timeout := Q2Qc 10;
     out := "8bitdo_filename_type.csv" |}.

Definition pair : Type := string * Z.

(** The handler of [fetch_with_retries]. *)
Definition transient : list exn := [URLError; HTTPError; TimeoutError; SocketTimeout].

(** [(v or "").strip()] *)
Definition strip_of (v : json) : exn + string :=
  match or_else v (JStr "") with
  | JStr s => inr (strip s)
  | _ => inl AttributeError
  end.

Definition is_none (v : json) : bool :=
  match v with JNull => true | _ => false end.

(** The sort key [lambda x: (x[0].lower(), x[1])] and Python's [<] on
    such tuples: the first components decide unless they are equal. *)
Definition key (x : pair) : pair := (lower x.1, x.2).

Definition tuple_lt (a b : pair) : bool :=
  if bool_decide (a.1 = b.1) then a.2 <? b.2 else String.ltb a.1 b.1.

(** [sorted] never places [b] before [a] when [key a < key b]. *)
Definition key_le (a b : pair) : Prop := tuple_lt (key b) (key a) = false.

#[global] Instance key_le_dec : RelDecision key_le.
Proof. intros a b. unfold key_le. apply _. Defined.

(** [sorted(seen, key=...)]; the set is visited in the order of
    [elements]. *)
Definition sorted (seen : gset pair) : list pair :=
  merge_sort key_le (elements seen).

Definition header : list cell := [CStr "fileName"; CStr "type"].
Definition row (x : pair) : list cell := [CStr x.1; CInt x.2].

(** What [writerow] and [writerows] put in the file. *)
Definition table (rows : list pair) : list (list cell) := header :: (row <$> rows).

(** The request of [fetch], the line of the handler, and what precedes
    and makes up retry number [k] (from 1): the wait, then the request. *)
Definition request (t : Z) (beta : bool) (timeout : Qc) : event :=
  EvPost BASE_URL t (if beta then Some "1" else None) timeout.

Definition warning (t : Z) (e : exn) : event :=
  EvStderr [Lit "warn: Type="; FInt t; Lit " -> "; FExn e].

Definition retry (t : Z) (beta : bool) (timeout : Qc) (wait : Qc) (k : nat)
  : list event :=
  [EvSleep (wait * 2 ^ (k - 1))%Qc; request t beta timeout].

(** The order asked of the rows: by file name without regard to case,
    then by type. *)
Definition in_order (a b : pair) : Prop :=
  String.ltb (lower a.1) (lower b.1) = true ∨
  (lower a.1 = lower b.1 ∧ a.2 ≤ b.2).




Section sweep.
Variable net : endpoint.

(** [fetch], as the [n]-th request for [t]. *)
Definition fetch (n : nat) (t : Z) (beta : bool) (timeout : Qc) : M json :=
  emit (request t beta timeout) >>
  match net t n with
  | Json j => ret j
  | NotJson => raise JSONDecodeError
  | Fails e => raise e
  end.

(** The loop [for attempt in range(retries + 1)] with [todo] rounds
    left; falling off its end returns [None]. *)
Fixpoint attempts (t : Z) (beta : bool) (timeout : Qc) (retries : nat)
    (wait : Qc) (attempt todo : nat) : M json :=
  match todo with
  | O => ret JNull
  | S todo' =>
      try_except (fetch attempt t beta timeout) transient (λ e,
        if bool_decide (attempt = retries)
        then emit (warning t e) >>
             ret JNull
        else sleep (wait * 2 ^ attempt)%Qc >>
             attempts t beta timeout retries wait (S attempt) todo')
  end.

Definition fetch_with_retries (t : Z) (beta : bool) (timeout : Qc)
    (retries : nat) (wait : Qc) : M json :=
  attempts t beta timeout retries wait 0 (retries + 1).

(** The body of [for item in ...]. *)
Definition add_item (item : json) (seen : gset pair) : exn + gset pair :=
  fn ← get "fileName" JNull item;
  name ← strip_of fn;
  typ ← get "type" JNull item;
  if negb (bool_decide (name = "")) && negb (is_none typ)
  then n ← int typ; inr ({[ (name, n) ]} ∪ seen)
  else inr seen.

Fixpoint add_items (items : list json) (seen : gset pair) : exn + gset pair :=
  match items with
  | [] => inr seen
  | item :: items' => seen' ← add_item item seen; add_items items' seen'
  end.

(** [for item in (data.get("list") or [])] *)
Definition collect (data : json) (seen : gset pair) : exn + gset pair :=
  l ← get "list" JNull data;
  items ← iter (or_else l (JArr []));
  add_items items seen.

(** The call in [main]: two retries, from 0.2 s. *)
Definition step_of (a : args) (t : Z) : M json :=
  fetch_with_retries t (beta a) (timeout a) 2 (Q2Qc (2 # 10)).

(** [for t in ...] of [main]. *)
Fixpoint loop (a : args) (ts : list Z) (seen : gset pair) : M (gset pair) :=
  match ts with
  | [] => ret seen
  | t :: ts' =>
      let* data := step_of a t in
      if negb (truthy data) then loop a ts' seen
      else
        let* seen' := lift (collect data seen) in
        sleep (sleep_s a) >>
        loop a ts' seen'
  end.

(** [main] after the command line is parsed.  Opening and writing the
    output file is taken to succeed. *)
Definition main (a : args) : M unit :=
  let* seen := loop a (seqZ (start a) (max a + 1 - start a)) ∅ in
  let rows := sorted seen in
  emit (EvWriteCsv (out a) (table rows)) >>
  print [Lit "Wrote "; FInt (Z.of_nat (length rows)); Lit " rows to "; FStr (out a)].

(** [if __name__ == "__main__": main()] *)
Definition program (a : args) : list event * ending :=
  let r := main a [] in (trace r, finish (result r)).

End sweep.

End Scraper.

(** ** 8bitdo_updater.py *)

Module Updater.
Import Py Proc.
Local Open Scope proc_scope.

Record gamepad : Type := { name : string; type : Z }.

Definition GAMEPADS : list (string * gamepad) :=
  [ ("1",  {| name := "Arcade Stick"; type := 34 |});
    ("2",  {| name := "Arcade Stick Receiver"; type := 35 |});
    ("3",  {| name := "F30 GamePad"; type := 2 |});
    ("4",  {| name := "F30 Arcade Stick"; type := 5 |});
    ("5",  {| name := "F30 Pro"; type := 1 |});
    ("6",  {| name := "Lite GamePad"; type := 28 |});
    ("7",  {| name := "M30"; type := 23 |});
    ("8",  {| name := "N30 GamePad"; type := 2 |});
    ("9",  {| name := "N30 NS GamePad"; type := 18 |});
    ("10", {| name := "N30 Pro"; type := 1 |});
    ("11", {| name := "N30 Pro 2"; type := 13 |});
    ("12", {| name := "Pro 2"; type := 33 |});
    ("13", {| name := "Pro 2 Wired"; type := 37 |});
    ("14", {| name := "SF30 Pro"; type := 9 |});
    ("15", {| name := "SN30 GamePad"; type := 3 |});
    ("16", {| name := "SN30 Pro+"; type := 25 |});
    ("17", {| name := "SN30 Pro"; type := 9 |}) ].

Definition API_URL : string := "http://dl.8bitdo.com:8080/firmware/select".
Definition DOWNLOAD_URL : string := "http://dl.8bitdo.com:8080".

(** The outside world of one run.  Each call below is made at most once
    in a run, so its result does not depend on earlier calls. *)
Record world : Type := {
  (* subprocess.run(['fwupdmgr', '--version'], check=True): the
     exception it raises, if any *)
  fwupdmgr_version : option exn;
  (* requests.post(API_URL, ...), raise_for_status() and json() *)
  api : Z → bool → exn + json;
  (* requests.get(url) and raise_for_status(): the body *)
  download : string → exn + string;
  (* fwupdmgr get-devices --json, stdout through json.loads *)
  devices_json : reply;
  (* fwupdmgr get-devices: stdout *)
  devices_text : exn + string;
  (* sudo fwupdtool install-blob file id: the return code *)
  install_blob : string → string → exn + Z;
  (* open(path, 'wb') and write: the exception raised, if any *)
  write_file : string → option exn;
  (* os.remove(path): the exception it raises, if any *)
  remove : string → option exn
}.

(** [os.remove] raises nothing but [OSError]. *)
Definition remove_raises_oserror (w : world) (path : string) : Prop :=
  match remove w path with
  | None => True
  | Some e => isinstance e OSError = true
  end.

Definition rule : string := times "=" 60.

Definition print_header : M unit :=
  print [Lit (nl +:+ rule)] >>
  print [Lit "  8BitDo Firmware Updater"] >>
  print [Lit (rule +:+ nl)].

Fixpoint display_entries (l : list (string * gamepad)) : M unit :=
  match l with
  | [] => ret tt
  | (k, g) :: l' =>
      print [Lit "  "; FStr (pad2 k); Lit ". "; FStr (name g)] >>
      display_entries l'
  end.

Definition display_gamepads : M unit :=
  print [Lit ("Available gamepads:" +:+ nl)] >>
  display_entries GAMEPADS >>
  print [].

(** [choice in GAMEPADS] and [GAMEPADS[choice]] *)
Fixpoint entry (k : string) (l : list (string * gamepad)) : option gamepad :=
  match l with
  | [] => None
  | (k', g) :: l' => if bool_decide (k = k') then Some g else entry k l'
  end.

Definition select_gamepad : M gamepad :=
  ask_until [Lit "Enter the number of your gamepad: "] (λ choice,
    match entry choice GAMEPADS with
    | Some g => ([], Ret (Some g))
    | None =>
        ([EvPrint [Lit ("Invalid selection. Please try again." +:+ nl)]], Ret None)
    end).

(** A [subprocess.run] or [os] call whose only result is that it may
    raise. *)
Definition may_raise (r : option exn) : M unit :=
  match r with Some e => raise e | None => ret tt end.

Fixpoint display_versions (idx : Z) (l : list json) : M unit :=
  match l with
  | [] => ret tt
  | fw :: l' =>
      let* version := lift (get "version" (JStr "Unknown") fw) in
      let* date := lift (get "date" (JStr "Unknown") fw) in
      let* size := lift (get "fileSize" (JNum 0) fw) in
      let* _ := lift (divisible size) in
      let* b := lift (get "beta" JNull fw) in
      print [Lit "  "; FInt idx; Lit ". Version "; FVal version; Lit " - ";
             FVal date; Lit " ("; FKb size; Lit " KB)";
             Lit (if truthy b then " (BETA)" else "")] >>
      display_versions (idx + 1) l'
  end.

Definition display_firmware_versions (firmware_list : json) : M json :=
  if negb (truthy firmware_list)
  then print [Lit "No firmware versions found."] >> ret JNull
  else
    print [Lit (nl +:+ "Available firmware versions:" +:+ nl)] >>
    let* l := lift (iter firmware_list) in
    display_versions 1 l >>
    ret firmware_list.

Definition round_of {A} (x : exn + A) (k : A → list event * outcome (option json))
  : list event * outcome (option json) :=
  match x with inl e => ([], Raise e) | inr a => k a end.

Definition select_firmware (firmware_list : json) : M json :=
  ask_until
    [Lit (nl +:+ "Enter the number of the firmware to download (or 'q' to quit): ")]
    (λ choice,
      if bool_decide (lower choice = "q") then ([], Ret (Some JNull))
      else
        match int_of_str choice with
        | None => ([EvPrint [Lit "Please enter a valid number."]], Ret None)
        | Some n =>
            let idx := n - 1 in
            let invalid : list event * outcome (option json) :=
              ([EvPrint [Lit "Invalid selection. Please try again."]], Ret None) in
            if 0 <=? idx
            then round_of (len firmware_list) (λ k,
                   if idx <? k
                   then round_of (item firmware_list idx) (λ fw, ([], Ret (Some fw)))
                   else invalid)
            else invalid
        end).

(** [get_device_id_fallback]: the first line among [lines[i-5 : i+10]]
    that holds a device identifier, and what follows the label on it. *)
Definition nearby_id (lines : list string) (i : nat) : option string :=
  match list_find (λ l, contains "Device ID:" l = true)
          (take (i + 10 - (i - 5)) (drop (i - 5) lines)) with
  | Some (_, l) => Some (strip (default "" (split "Device ID:" l !! 1%nat)))
  | None => None
  end.

Fixpoint scan (lines : list string) (i : nat) (rest : list string)
    (device_id : option string) : M json :=
  match rest with
  | [] => ret JNull
  | line :: rest' =>
      if contains "8bitdo" (lower line)
      then
        let device_id' :=
          match nearby_id lines i with Some d => Some d | None => device_id end in
        match device_id' with
        | Some (String c d) =>
            print [Lit (nl +:+ "✓ Found device ID: "); FStr (String c d)] >>
            ret (JStr (String c d))
        | _ => scan lines (S i) rest' device_id'
        end
      else scan lines (S i) rest' device_id
  end.

(** ['8bitdo' in vendor or '8bit' in vendor] *)
Definition brand (vendor : string) : bool :=
  contains "8bitdo" vendor || contains "8bit" vendor.

(** A child process started through [sudo]: the flashing tool. *)
Definition is_flash (e : event) : bool :=
  match e with
  | EvRun (String "s" (String "u" (String "d" (String "o" EmptyString))) :: _) => true
  | _ => false
  end.

(** An entry of the device list that is a dict, with a [Vendor] that is a
    str (or none) and does not match. *)
Definition other_vendor (device : json) : Prop :=
  ∃ kv vendor,
    device = JObj kv ∧
    default (JStr "") (assoc "Vendor" kv) = JStr vendor ∧
    brand (lower vendor) = false.

(** [for device in devices.get('Devices', [])] and the line after it. *)
Fixpoint search (l : list json) : M json :=
  match l with
  | [] => print [Lit "No 8BitDo gamepad found."] >> ret JNull
  | device :: l' =>
      let* v := lift (get "Vendor" (JStr "") device) in
      let* vendor := lift (lower_of v) in
      if brand vendor
      then
        let* device_id := lift (get "DeviceId" JNull device) in
        let* name := lift (get "Name" (JStr "Unknown") device) in
        let* version := lift (get "Version" (JStr "Unknown") device) in
        print [Lit (nl +:+ "✓ Found: "); FVal name] >>
        print [Lit "  Current version: "; FVal version] >>
        print [Lit "  Device ID: "; FVal device_id] >>
        ret device_id
      else search l'
  end.

Definition print_instructions : M unit :=
  print [Lit (nl +:+ rule)] >>
  print [Lit "  INSTRUCTIONS"] >>
  print [Lit rule] >>
  print [Lit (nl +:+ "1. Put your gamepad in bootloader mode:")] >>
  print [Lit "   - Hold down L1 + R1 + START for 3 seconds"] >>
  print [Lit "   - A status LED should blink RED"] >>
  print [Lit (nl +:+ "2. Connect the gamepad to your computer via USB cable")] >>
  print [Lit (nl +:+ "3. Press Enter when ready...")] >>
  print [Lit (rule +:+ nl)] >>
  let* _ := input [] in
  ret tt.

(** *** Pieces of the output that the properties name *)

(** The two lines [fetch_firmware_list] starts with. *)
Definition asked (g : gamepad) (b : bool) : list event :=
  [ EvPrint [Lit (nl +:+ "Fetching firmware list for "); FInt (type g); Lit "..."];
    EvPost API_URL (type g) (Some (if b then "1" else "0")) (Q2Qc 10) ].

(** No request and no download before the firmware list is fetched. *)
Definition offline (e : event) : Prop := is_post e = false ∧ is_get e = false.

Definition searched : list event :=
  [ EvPrint [Lit (nl +:+ "Searching for 8BitDo gamepad...")];
    EvRun ["fwupdmgr"; "get-devices"; "--json"];
    EvPrint [Lit "No 8BitDo gamepad found."] ].

Definition keep_prompt (file : string) : event :=
  EvPrompt [Lit (nl +:+ "Do you want to keep the firmware file '"); FStr file;
            Lit "'? (y/n): "].

Definition instructions : list event := (print_instructions []).1.1.

Definition not_found : event :=
  EvPrint [Lit (nl +:+ "Couldn't find your gamepad. Make sure it's in bootloader mode and connected.")].

Definition no_flash (e : event) : Prop := is_flash e = false.

Definition confirm_prompt : event :=
  EvPrompt [Lit (nl +:+ "Proceed with firmware update? (y/n): ")].

Section run.
Variable w : world.

Definition fetch_firmware_list (gamepad_type : Z) (include_beta : bool) : M json :=
  print [Lit (nl +:+ "Fetching firmware list for "); FInt gamepad_type; Lit "..."] >>
  try_except
    (emit (EvPost API_URL gamepad_type
             (Some (if include_beta then "1" else "0")) (Q2Qc 10)) >>
     let* data := lift (api w gamepad_type include_beta) in
     let* state := lift (get "msgState" JNull data) in
     if negb (eq_one state)
     then
       let* err := lift (get "error" (JStr "Unknown error") data) in
       print [Lit "Error from API: "; FVal err] >>
       ret JNull
     else lift (get "list" (JArr []) data))
    [RequestException]
    (λ e, print [Lit "Error fetching firmware list: "; FExn e] >> ret JNull).

(** Returns the name of the file, or [None]. *)
Definition download_firmware (firmware : json) : M (option string) :=
  let* file_path := lift (get "filePathName" JNull firmware) in
  if negb (truthy file_path)
  then print [Lit "Error: No file path found in firmware data"] >> ret None
  else
    match file_path with
    | JStr p =>
        let url := DOWNLOAD_URL +:+ p in
        let filename := path_name p in
        print [Lit (nl +:+ "Downloading firmware: "); FStr filename; Lit "..."] >>
        try_except
          (emit (EvGet url (Q2Qc 30)) >>
           let* content := lift (download w url) in
           may_raise (write_file w filename) >>
           emit (EvWriteFile filename content) >>
           print [Lit "✓ Firmware downloaded successfully: "; FStr filename] >>
           ret (Some filename))
          [RequestException]
          (λ e, print [Lit "Error downloading firmware: "; FExn e] >> ret None)
    | _ => raise TypeError      (* Path(file_path) *)
    end.

Definition get_device_id_fallback : M json :=
  try_except
    (emit (EvRun ["fwupdmgr"; "get-devices"]) >>
     let* stdout := lift (devices_text w) in
     let lines := split nl stdout in
     scan lines 0 lines None)
    [CalledProcessError]
    (λ _, ret JNull).

Definition get_gamepad_device_id : M json :=
  print [Lit (nl +:+ "Searching for 8BitDo gamepad...")] >>
  try_except
    (emit (EvRun ["fwupdmgr"; "get-devices"; "--json"]) >>
     let* devices :=
       match devices_json w with
       | Json j => ret j
       | NotJson => raise JSONDecodeError
       | Fails e => raise e
       end in
     let* ds := lift (get "Devices" (JArr []) devices) in
     let* l := lift (iter ds) in
     search l)
    [CalledProcessError; JSONDecodeError]
    (λ e,
      if isinstance e CalledProcessError
      then
        print [Lit "Error running fwupdmgr: "; FExn e] >>
        print [Lit "Make sure fwupd is installed and you have the necessary permissions."] >>
        ret JNull
      else
        print [Lit "Error parsing fwupdmgr output. Trying alternative method..."] >>
        get_device_id_fallback).

Definition flash_firmware (firmware_file : string) (device_id : json) : M bool :=
  print [Lit (nl +:+ "Flashing firmware to gamepad...")] >>
  print [Lit "This may take a minute. Please do not disconnect the gamepad."] >>
  print [Lit ("You may be prompted for your sudo password..." +:+ nl)] >>
  try_except
    (match device_id with
     | JStr d =>
         emit (EvRun ["sudo"; "fwupdtool"; "install-blob"; firmware_file; d]) >>
         let* returncode := lift (install_blob w firmware_file d) in
         if returncode =? 0
         then
           print [Lit (nl +:+ "✓ Firmware flashed successfully!")] >>
           print [Lit (nl +:+ "The gamepad may restart automatically.")] >>
           print [Lit "If it doesn't, please manually restart it by disconnecting and reconnecting."] >>
           ret true
         else
           print [Lit (nl +:+ "✗ Error flashing firmware (exit code: ");
                  FInt returncode; Lit ")"] >>
           ret false
     | _ => raise TypeError     (* an argument that is not a str *)
     end)
    [CalledProcessError; FileNotFoundError]
    (λ e,
      if isinstance e CalledProcessError
      then print [Lit "Error running fwupdtool: "; FExn e] >> ret false
      else print [Lit "Error: fwupdtool not found. Please install fwupd."] >>
           ret false).

(** [input(...).strip().lower() == 'y'] *)
Definition yes (answer : string) : bool :=
  bool_decide (lower (strip answer) = "y").

Definition cleanup_firmware_file (filename : string) : M unit :=
  let* response :=
    input [Lit (nl +:+ "Do you want to keep the firmware file '"); FStr filename;
           Lit "'? (y/n): "] in
  if negb (yes response)
  then
    try_except
      (emit (EvRemove filename) >>
       may_raise (remove w filename) >>
       print [Lit "✓ Removed "; FStr filename])
      [OSError]
      (λ e, print [Lit "Error removing file: "; FExn e])
  else ret tt.

(** What follows the prompt of [cleanup_firmware_file]. *)
Definition removal (file answer : string) : list event :=
  if yes answer then []
  else [ EvRemove file;
         match remove w file with
         | None => EvPrint [Lit "✓ Removed "; FStr file]
         | Some e => EvPrint [Lit "Error removing file: "; FExn e]
         end ].

(** [main] is cut at its results: each piece below runs a stretch of
    the function and either returns the value the next stretch uses,
    or leaves through [sys.exit], which ends the whole of [main]. *)

(** The header, the check for fwupd, and Step 1 with the beta
    question of Step 2: the gamepad chosen and the answer. *)
Definition choose : M (gamepad * bool) :=
  print_header >>
  try_except
    (emit (EvRun ["fwupdmgr"; "--version"]) >>
     may_raise (fwupdmgr_version w))
    [CalledProcessError; FileNotFoundError]
    (λ _,
      print [Lit "Error: fwupd is not installed or not in PATH."] >>
      print [Lit "Please install fwupd first: sudo apt install fwupd"] >>
      sys_exit 1) >>
  display_gamepads >>
  let* selected_gamepad := select_gamepad in
  print [Lit (nl +:+ "Selected: "); FStr (name selected_gamepad)] >>
  let* answer := input [Lit (nl +:+ "Include beta versions? (y/n): ")] in
  ret (selected_gamepad, yes answer).

(** Step 2: the firmware list. *)
Definition fetch_stage (selected_gamepad : gamepad) (include_beta : bool) : M json :=
  let* firmware_list := fetch_firmware_list (type selected_gamepad) include_beta in
  if negb (truthy firmware_list)
  then print [Lit "Failed to fetch firmware list. Exiting."] >> sys_exit 1
  else ret firmware_list.

(** Steps 3 and 4: the firmware file on disk. *)
Definition download_stage (firmware_list : json) : M string :=
  let* firmware_list := display_firmware_versions firmware_list in
  let* selected_firmware := select_firmware firmware_list in
  if negb (truthy selected_firmware)
  then print [Lit "Exiting."] >> sys_exit 0
  else
    let* firmware_file := download_firmware selected_firmware in
    match firmware_file with
    | Some (String c f) => ret (String c f)
    | _ => print [Lit "Failed to download firmware. Exiting."] >> sys_exit 1
    end.

(** Steps 5 and 6: the device identifier. *)
Definition discovery_stage (firmware_file : string) : M json :=
  print_instructions >>
  let* device_id := get_gamepad_device_id in
  if negb (truthy device_id)
  then
    print [Lit (nl +:+ "Couldn't find your gamepad. Make sure it's in bootloader mode and connected.")] >>
    cleanup_firmware_file firmware_file >>
    sys_exit 1
  else ret device_id.

(** Steps 7 to 9. *)
Definition flash_stage (firmware_file : string) (device_id : json) : M unit :=
  let* response := input [Lit (nl +:+ "Proceed with firmware update? (y/n): ")] in
  if negb (yes response)
  then
    print [Lit "Update cancelled."] >>
    cleanup_firmware_file firmware_file >>
    sys_exit 0
  else
    let* success := flash_firmware firmware_file device_id in
    cleanup_firmware_file firmware_file >>
    if success : bool
    then
      print [Lit (nl +:+ rule)] >>
      print [Lit "  Update completed successfully!"] >>
      print [Lit (rule +:+ nl)]
    else
      print [Lit (nl +:+ "Update failed. Please try again or update manually.")] >>
      sys_exit 1.

(** [main] as far as the end of Step 4. *)
Definition main_to_download : M string :=
  let* chosen := choose in
  let* firmware_list := fetch_stage chosen.1 chosen.2 in
  download_stage firmware_list.

Definition main : M unit :=
  let* firmware_file := main_to_download in
  let* device_id := discovery_stage firmware_file in
  flash_stage firmware_file device_id.

(** The guard at the bottom of the file: [KeyboardInterrupt] out of
    [main] ends the run with status 0. *)
Definition guarded_main : M unit :=
  try_except main [KeyboardInterrupt]
    (λ _, print [Lit (nl +:+ nl +:+ "Operation cancelled by user.")] >> sys_exit 0).

Definition program (stdin : list stroke) : list event * ending :=
  let r := guarded_main stdin in (trace r, finish (result r)).

End run.

End Updater.

(** ** Inputs used as examples *)

Module Samples.
Import Py Proc Scraper.

Definition entry (fileName : string) (type : json) : json :=
  JObj [("fileName", JStr fileName); ("type", type)].

Definition list1 : json :=
  JObj [("list", JArr [entry " b.bin " (JNum 2); entry "A.bin" (JStr "5")])].

Definition list2 : json :=
  JObj [("list", JArr [entry "a.bin" (JNum 1); entry "b.bin" (JNum 2)])].

(** Type 0 is never answered; types 1 and 2 both list [b.bin]. *)
Definition net : endpoint := λ t n,
  if t =? 0 then Fails URLError
  else if t =? 1 then Json list1
  else if t =? 2 then Json list2
  else Json (JObj [("list", JArr [])]).

Definition few : args :=
  {| start := 0; max := 2; beta := false; sleep_s := Q2Qc (3 # 100);
     timeout := Q2Qc 10; out := "out.csv" |}.

Definition found : gset pair := {[ ("a.bin", 1); ("A.bin", 5); ("b.bin", 2) ]}.

(** The file of that sweep. *)
Definition file : list (list cell) :=
  [ [CStr "fileName"; CStr "type"];
    [CStr "a.bin"; CInt 1]; [CStr "A.bin"; CInt 5]; [CStr "b.bin"; CInt 2] ].

(** Type 0 is answered with a page that is not JSON. *)
Definition garbled : endpoint := λ t n,
  if t =? 0 then NotJson else Json (JObj [("list", JArr [])]).

(** Ctrl-C arrives during the first request. *)
Definition interrupted : endpoint := λ t n, Fails KeyboardInterrupt.

(** Type 0 is never answered, type 1 has an empty list. *)
Definition offline0 : endpoint := λ t n,
  if t =? 0 then Fails URLError else Json (JObj [("list", JArr [])]).

Definition two : args :=
  {| start := 0; max := 1; beta := false; sleep_s := Q2Qc (3 # 100);
     timeout := Q2Qc 10; out := "out.csv" |}.
End Samples.

Module Sessions.
Import Py Proc Updater.

Definition firmware : json :=
  JObj [("version", JStr "1.2"); ("date", JStr "2020-01-01"); ("fileSize", JNum 2048);
        ("filePathName", JStr "/firmware/a.dat")].

(** A run in which the endpoint answers with the given object and the
    only device listed is another vendor's. *)
Definition session (answer : json) : world :=
  {| fwupdmgr_version := None;
     api := λ _ _, inr answer;
     download := λ _, inr "BLOB";
     devices_json :=
       Json (JObj [("Devices",
                    JArr [JObj [("Vendor", JStr "Intel"); ("DeviceId", JStr "abc")]])]);
     devices_text := inr "";
     install_blob := λ _ _, inr 0;
     write_file := λ _, None;
     remove := λ _, None |}.

(** The endpoint reports success with an empty list. *)
Definition empty_list : world :=
  session (JObj [("msgState", JNum 1); ("list", JArr [])]).

(** The endpoint lists one firmware, no 8BitDo device is attached. *)
Definition no_device : world :=
  session (JObj [("msgState", JNum 1); ("list", JArr [firmware])]).

(** Pro 2, no beta, first firmware, Enter, and do not keep the file. *)
Definition typed : list stroke :=
  [Line "12"; Line "n"; Line "1"; Line ""; Line "n"].
End Sessions.

(** ** Notions for runs, sweeps and update sessions *)

Module RunNotions.
Import Py Proc.

(** [sys.exit] is only called with one of [cs]. *)
Definition exits_with {A} (cs : list Z) (m : M A) : Prop :=
  ∀ i c, result (m i) = Exit c → c ∈ cs.

(** Whatever the computation returns satisfies [Q]. *)
Definition returns {A} (Q : A → Prop) (m : M A) : Prop :=
  ∀ i, match result (m i) with Ret a => Q a | _ => True end.
End RunNotions.

Module SweepNotions.
Import Py Proc Scraper.

(** What [fetch] makes of a reply. *)
Definition fetched (r : reply) : outcome json :=
  match r with
  | Json j => Ret j
  | NotJson => Raise JSONDecodeError
  | Fails e => Raise e
  end.

(** A reply after which [fetch_with_retries] tries again or gives up with
    a warning: an exception its handler names. *)
Definition retried (r : reply) : bool :=
  match r with
  | Fails e => caught_by transient e
  | _ => false
  end.

(** An item the loop body passes over: a dict whose [fileName] is absent,
    false or blank, or whose [type] is absent or null. *)
Definition incomplete (item : json) : Prop :=
  ∃ kv name,
    item = JObj kv ∧
    strip_of (default JNull (assoc "fileName" kv)) = inr name ∧
    (name = "" ∨ default JNull (assoc "type" kv) = JNull).

(** A name as the loop body stores it: not empty, and with no white space
    left at either end. *)
Definition tidy (name : string) : Prop := name ≠ "" ∧ strip name = name.

(** A request of the sweep over [a]: for a Type value of the range, with
    the beta marker and the timeout of the command line. *)
Definition in_range (a : args) (e : event) : Prop :=
  is_post e = true →
  ∃ t, start a ≤ t ≤ max a ∧ e = request t (beta a) (timeout a).


End SweepNotions.

Module UpdateNotions.
Import Py Proc Updater.

(** The output of [print_header] and [display_gamepads], and the check
    that follows the header. *)
Definition banner : list event := (print_header []).1.1.
Definition listing : list event := (display_gamepads []).1.1.
Definition preflight : event := EvRun ["fwupdmgr"; "--version"].

Definition gamepad_prompt : event := EvPrompt [Lit "Enter the number of your gamepad: "].
Definition firmware_prompt : event :=
  EvPrompt [Lit (nl +:+ "Enter the number of the firmware to download (or 'q' to quit): ")].

(** A line that, stripped, is no key of the catalog. *)
Definition unlisted (s : string) : Prop := entry (strip s) GAMEPADS = None.

(** One round of [select_gamepad] that starts over. *)
Definition refused : list event :=
  [gamepad_prompt; EvPrint [Lit ("Invalid selection. Please try again." +:+ nl)]].

(** A request for the firmware list of a gamepad of the catalog. *)
Definition catalog_request (e : event) : Prop :=
  is_post e = true →
  ∃ k g b, (k, g) ∈ GAMEPADS ∧
    e = EvPost API_URL (type g) (Some (if b : bool then "1" else "0")) (Q2Qc 10).


(** An identifier read off a line of the device list that carries the
    label. *)
Definition device_line (lines : list string) (d : string) : Prop :=
  ∃ line, line ∈ lines ∧ contains "Device ID:" line = true ∧
    d = strip (default "" (split "Device ID:" line !! 1%nat)).

(** The lines [search] prints for the device it settles on. *)
Definition found_device (kv : list (string * json)) : list event :=
  [ EvPrint [Lit (nl +:+ "✓ Found: "); FVal (default (JStr "Unknown") (assoc "Name" kv))];
    EvPrint [Lit "  Current version: ";
             FVal (default (JStr "Unknown") (assoc "Version" kv))];
    EvPrint [Lit "  Device ID: "; FVal (default JNull (assoc "DeviceId" kv))] ].

(** The announcement of [download_firmware] and its request. *)
Definition fetching (p : string) : list event :=
  [ EvPrint [Lit (nl +:+ "Downloading firmware: "); FStr (path_name p); Lit "..."];
    EvGet (DOWNLOAD_URL +:+ p) (Q2Qc 30) ].

(** What [main] prints after the cleanup of Step 9. *)
Definition verdict (success : bool) : list event :=
  if success
  then [ EvPrint [Lit (nl +:+ rule)];
         EvPrint [Lit "  Update completed successfully!"];
         EvPrint [Lit (rule +:+ nl)] ]
  else [ EvPrint [Lit (nl +:+ "Update failed. Please try again or update manually.")] ].

(** A gamepad of the catalog. *)
Definition listed (g : gamepad) : Prop := ∃ k, (k, g) ∈ GAMEPADS.

End UpdateNotions.

(** ** More sample endpoints, arguments and worlds *)

Module SweepSamples.
Import Py Proc Scraper.

(** The first request for every Type times out, the second is answered. *)
Definition flaky : endpoint := λ t n,
  match n with
  | O => Fails TimeoutError
  | _ => Json Samples.list2
  end.


(** A file name of blanks, and an entry without a type. *)
Definition partial : list (string * json) :=
  [("list", JArr [Samples.entry "  " (JNum 1); Samples.entry "a.bin" JNull])].


Definition hasty : args :=
  {| start := 1; max := 2; beta := false; sleep_s := Q2Qc (-1 # 10);
     timeout := Q2Qc 10; out := "out.csv" |}.

End SweepSamples.

Module UpdateSamples.
Import Py Proc Updater.

(** The firmware file cannot be fetched. *)
Definition broken_link : world :=
  {| fwupdmgr_version := None;
     api := λ _ _, inr (JObj [("msgState", JNum 1); ("list", JArr [Sessions.firmware])]);
     download := λ _, inl RequestException;
     devices_json := NotJson;
     devices_text := inr ("8BitDo Pro 2" +:+ nl +:+ "  Device ID:  abc123 ");
     install_blob := λ _ _, inr 1;
     write_file := λ _, None;
     remove := λ _, None |}.

(** The firmware file cannot be written. *)
Definition full_disk : world :=
  {| fwupdmgr_version := None;
     api := λ _ _, inr (JObj [("msgState", JNum 1); ("list", JArr [Sessions.firmware])]);
     download := λ _, inr "BLOB";
     devices_json := NotJson;
     devices_text := inr "";
     install_blob := λ _ _, inr 0;
     write_file := λ _, Some OSError;
     remove := λ _, None |}.

(** The firmware endpoint cannot be reached. *)
Definition unreachable : world :=
  {| fwupdmgr_version := None;
     api := λ _ _, inl RequestException;
     download := λ _, inl RequestException;
     devices_json := NotJson;
     devices_text := inr "";
     install_blob := λ _ _, inr 0;
     write_file := λ _, None;
     remove := λ _, None |}.

(** [fwupdmgr] is not installed. *)
Definition no_fwupd : world :=
  {| fwupdmgr_version := Some FileNotFoundError;
     api := λ _ _, inl RequestException;
     download := λ _, inl RequestException;
     devices_json := Fails CalledProcessError;
     devices_text := inl CalledProcessError;
     install_blob := λ _ _, inl FileNotFoundError;
     write_file := λ _, None;
     remove := λ _, None |}.

(** A device list with another vendor's device before the gamepad. *)
Definition intel : json := JObj [("Vendor", JStr "Intel"); ("DeviceId", JStr "abc")].
Definition pad : list (string * json) :=
  [("Vendor", JStr "8BitDo"); ("DeviceId", JStr "xyz"); ("Version", JStr "1.0")].
End UpdateSamples.

(** * Properties *)

(** ** The process monad *)

Module ProcFacts.
Import Py Proc.
Local Open Scope proc_scope.

Lemma bind_ret {A B} (m : M A) (k : A → M B) i t i' a :
  m i = (t, i', Ret a) →
  bind m k i = ((t ++ (k a i').1.1), (k a i').1.2, (k a i').2).
Proof. intros H. unfold bind. rewrite H. by destruct (k a i') as [[??]?]. Qed.

Lemma bind_raise {A B} (m : M A) (k : A → M B) i t i' e :
  m i = (t, i', Raise e) → bind m k i = (t, i', Raise e).
Proof. intros H. unfold bind. by rewrite H. Qed.

Lemma bind_exit {A B} (m : M A) (k : A → M B) i t i' c :
  m i = (t, i', Exit c) → bind m k i = (t, i', Exit c).
Proof. intros H. unfold bind. by rewrite H. Qed.

Lemma bind_emit {B} e (k : unit → M B) i :
  bind (emit e) k i = (e :: (k tt i).1.1, (k tt i).1.2, (k tt i).2).
Proof. unfold bind, emit. by destruct (k tt i) as [[??]?]. Qed.

Lemma emits_ret {A} P (a : A) : emits P (ret a).
Proof. intros i. constructor. Qed.
Lemma emits_raise {A} P e : emits P (@raise A e).
Proof. intros i. constructor. Qed.
Lemma emits_exit {A} P c : emits P (@sys_exit A c).
Proof. intros i. constructor. Qed.
Lemma emits_lift {A} P (x : exn + A) : emits P (lift x).
Proof. destruct x; [apply emits_raise | apply emits_ret]. Qed.
Lemma emits_emit P e : P e → emits P (emit e).
Proof. intros H i. by repeat constructor. Qed.
Lemma emits_sleep P d : P (EvSleep d) → emits P (sleep d).
Proof.
  intros H. unfold sleep. case_decide; [apply emits_raise|by apply emits_emit].
Qed.
Lemma emits_input P m : P (EvPrompt m) → emits P (input m).
Proof. intros H [|[s|] i]; by repeat constructor. Qed.
Lemma emits_bind {A B} P (m : M A) (k : A → M B) :
  emits P m → (∀ a, emits P (k a)) → emits P (bind m k).
Proof.
  intros Hm Hk i. specialize (Hm i). unfold bind, trace in *.
  destruct (m i) as [[t i'] [a|e|c]]; simpl in *; try done.
  specialize (Hk a i'). unfold trace in Hk.
  destruct (k a i') as [[t' i''] r]; simpl in *. by apply Forall_app.
Qed.
Lemma emits_try {A} P (m : M A) cs h :
  emits P m → (∀ e, emits P (h e)) → emits P (try_except m cs h).
Proof.
  intros Hm Hh i. specialize (Hm i). unfold try_except, trace in *.
  destruct (m i) as [[t i'] [a|e|c]]; simpl in *; try done.
  destruct (caught_by cs e); [|done].
  specialize (Hh e i'). unfold trace in Hh.
  destruct (h e i') as [[t' i''] r]; simpl in *. by apply Forall_app.
Qed.
Lemma emits_ask_until {A} P m (round : string → list event * outcome (option A)) :
  P (EvPrompt m) → (∀ s, Forall P (round s).1) → emits P (ask_until m round).
Proof.
  intros Hp Hr i. unfold trace. induction i as [|[s|] i IH]; simpl.
  - by repeat constructor.
  - specialize (Hr (strip s)). destruct (round (strip s)) as [t [[a|]|e|c]]; simpl in *;
      try by constructor.
    destruct (ask_until m round i) as [[t' i''] r]; simpl in *.
    constructor; [done|]. by apply Forall_app.
  - by repeat constructor.
Qed.
End ProcFacts.

(** ** The built-ins, on examples *)

Module PyFacts.
Import Py.

Example strip_ex : strip (" " +:+ nl +:+ "a b" +:+ nl) = "a b".
Proof. reflexivity. Qed.

Example lower_ex : lower "A.Bin_9" = "a.bin_9".
Proof. reflexivity. Qed.

Example split_ex : split "ab" "xxabyyabab" = ["xx"; "yy"; ""; ""].
Proof. reflexivity. Qed.

Example int_ex :
  int_of_str " +1_0 " = Some 10 ∧ int_of_str "-12" = Some (-12) ∧
  int_of_str "0012" = Some 12 ∧ int_of_str "1__0" = None ∧
  int_of_str "1_" = None ∧ int_of_str "" = None ∧ int_of_str "0x1" = None.
Proof. repeat split; reflexivity. Qed.

Example path_name_ex :
  path_name "/firmware/a.dat" = "a.dat" ∧ path_name "a/./b/" = "b" ∧
  path_name "/" = "" ∧ path_name "a/.." = "..".
Proof. repeat split; reflexivity. Qed.

Example contains_ex :
  contains "8bit" (lower "8BitDo Inc.") = true ∧ contains "8bitdo" "8bit" = false.
Proof. split; reflexivity. Qed.

Example handlers_ex :
  caught_by [URLError; HTTPError; TimeoutError; SocketTimeout] HTTPError = true ∧
  caught_by [URLError; HTTPError; TimeoutError; SocketTimeout] JSONDecodeError = false ∧
  caught_by [ValueError] JSONDecodeError = true ∧
  caught_by [OSError] FileNotFoundError = true ∧
  caught_by [OSError] KeyboardInterrupt = false.
Proof. repeat split; reflexivity. Qed.

End PyFacts.

(** ** The sweeper *)

Module ScraperFacts.
Import Py Proc ProcFacts Scraper.
Local Open Scope proc_scope.

(** *** Ranges *)




(** *** The sort *)

Lemma compare_refl (s : string) : String.compare s s = Eq.
Proof.
  induction s as [|c s IH]; [done|]. cbn.
  unfold Ascii.compare. by rewrite N.compare_refl.
Qed.

Lemma ltb_le (x y : string) : String.ltb x y = true ↔ String.le x y ∧ x ≠ y.
Proof.
  unfold String.le, String.ltb, String.leb.
  destruct (String.compare x y) eqn:Hc; split; try done.
  - intros [_ []]. by apply String.compare_eq_iff.
  - intros _. split; [done|]. intros ->.
    pose proof (compare_refl y) as Hr.
    congruence.
  - by intros [[] _].
Qed.

Lemma key_le_in_order a b : key_le a b ↔ in_order a b.
Proof.
  unfold key_le, in_order, tuple_lt, key. cbn [fst snd].
  rewrite ltb_le. case_bool_decide as Heq.
  - rewrite Z.ltb_ge. split; [intros ?; right; by split|].
    intros [[_ Hne]|[_ ?]]; [by destruct Hne|done].
  - rewrite <-not_true_iff_false, ltb_le. split.
    + intros Hn. left. split; [|by intros ?].
      destruct (total String.le (lower a.1) (lower b.1)) as [?|?]; [done|].
      destruct Hn. by split.
    + intros [[Hle Hne]|[? _]] [Hle' _]; [|done].
      destruct Hne. by apply (anti_symm String.le).
Qed.

#[local] Instance in_order_trans : Transitive in_order.
Proof.
  intros a b c. unfold in_order. rewrite !ltb_le.
  intros [[H1 N1]|[E1 L1]] [[H2 N2]|[E2 L2]].
  - left. split; [by etrans|]. intros E. rewrite E in H1.
    destruct N2. by apply (anti_symm String.le).
  - left. by rewrite <-E2.
  - left. by rewrite E1.
  - right. split; [congruence|lia].
Qed.

#[local] Instance key_le_trans : Transitive key_le.
Proof. intros a b c. rewrite !key_le_in_order. apply in_order_trans. Qed.

#[local] Instance key_le_total : Total key_le.
Proof.
  intros a b. rewrite !key_le_in_order. unfold in_order. rewrite !ltb_le.
  destruct (decide (lower a.1 = lower b.1)) as [E|N].
  - destruct (decide (a.2 ≤ b.2)); [left; by right|right; right]. split; [done|lia].
  - destruct (total String.le (lower a.1) (lower b.1)); [left|right]; left;
      split; congruence.
Qed.


Lemma sorted_perm (seen : gset pair) : sorted seen ≡ₚ elements seen.
Proof. apply merge_sort_Permutation. Qed.


Lemma elem_of_sorted (seen : gset pair) p : p ∈ sorted seen ↔ p ∈ seen.
Proof. rewrite sorted_perm. apply elem_of_elements. Qed.

#[local] Instance row_inj : Inj (=) (=) row.
Proof. intros [??] [??] [=]. by simplify_eq/=. Qed.




(** *** What the loop body adds *)






(** *** One call of [fetch_with_retries], and the loop *)

Section retries.
Variable net : endpoint.

Lemma fetch_run n t b to i :
  fetch net n t b to i =
    ([request t b to], i,
     match net t n with
     | Json j => Ret j
     | NotJson => Raise JSONDecodeError
     | Fails e => Raise e
     end).
Proof. unfold fetch. rewrite bind_emit. by destruct (net t n). Qed.

Lemma attempts_step t b to r w attempt todo i :
  attempts net t b to r w attempt (S todo) i =
    match net t attempt with
    | Json j => ([request t b to], i, Ret j)
    | NotJson => ([request t b to], i, Raise JSONDecodeError)
    | Fails e =>
        if caught_by transient e
        then
          if bool_decide (attempt = r)
          then ([request t b to; warning t e], i, Ret JNull)
          else if decide (w * 2 ^ attempt < 0)%Qc
          then ([request t b to], i, Raise ValueError)
          else
            let r' := attempts net t b to r w (S attempt) todo i in
            (request t b to :: EvSleep (w * 2 ^ attempt)%Qc :: r'.1.1, r'.1.2, r'.2)
        else ([request t b to], i, Raise e)
    end.
Proof.
  cbn [attempts]. unfold try_except. rewrite fetch_run.
  destruct (net t attempt) as [j| |e]; try done.
  destruct (caught_by transient e); [|done].
  case_bool_decide.
  - by rewrite bind_emit.
  - unfold sleep. case_decide; [done|]. rewrite bind_emit.
    by destruct (attempts net t b to r w (S attempt) todo i) as [[??]?].
Qed.

Lemma attempts_shape t b to r w todo : ∀ attempt i,
  (attempt + S todo = r + 1)%nat →
  ∃ n tail o,
    (attempt + n ≤ r)%nat ∧
    attempts net t b to r w attempt (S todo) i =
      (request t b to :: flat_map (retry t b to w) (seq (S attempt) n) ++ tail, i, o) ∧
    (tail = [] ∨ ∃ e, tail = [warning t e] ∧ o = Ret JNull).
Proof.
  induction todo as [|todo IH]; intros attempt i Hsum; rewrite attempts_step.
  - destruct (net t attempt) as [j| |e].
    + exists 0%nat, [], (Ret j). split; [lia|]. by split; [|left].
    + exists 0%nat, [], (Raise JSONDecodeError). split; [lia|]. by split; [|left].
    + destruct (caught_by transient e).
      * rewrite bool_decide_true by lia.
        exists 0%nat, [warning t e], (Ret JNull). split; [lia|]. split; [done|]. right; eauto.
      * exists 0%nat, [], (Raise e). split; [lia|]. by split; [|left].
  - destruct (net t attempt) as [j| |e].
    + exists 0%nat, [], (Ret j). split; [lia|]. by split; [|left].
    + exists 0%nat, [], (Raise JSONDecodeError). split; [lia|]. by split; [|left].
    + destruct (caught_by transient e).
      * rewrite bool_decide_false by lia. case_decide.
        { exists 0%nat, [], (Raise ValueError). split; [lia|]. by split; [|left]. }
        destruct (IH (S attempt) i) as (n & tail & o & Hn & -> & Htail); [lia|].
        exists (S n), tail, o. split; [lia|]. split; [|done].
        cbn [seq flat_map retry fst snd app]. by replace (S attempt - 1)%nat with attempt by lia.
      * exists 0%nat, [], (Raise e). split; [lia|]. by split; [|left].
Qed.

Lemma retries_posts t b to w l :
  length (filter is_post (flat_map (retry t b to w) l)) = length l.
Proof.
  induction l as [|k l IH]; [done|].
  cbn [flat_map retry app length]. rewrite !filter_cons.
  cbn [is_post request]. rewrite decide_False, decide_True by (cbn; tauto).
  cbn [length]. by rewrite IH.
Qed.

(** C4: a call of [fetch_with_retries] with base wait [wait] and
    retry maximum [retries] makes the first request and then [n]
    retries, [n <= retries]; retry number [k] is the wait
    [wait * 2^(k-1)] followed by the request, and nothing but the
    warning line follows the last request.  So there are [n + 1], at
    most [retries + 1], requests. *)
Theorem backoff_schedule t beta timeout retries wait i :
  let tr := trace (fetch_with_retries net t beta timeout retries wait i) in
  ∃ n tail,
    (n ≤ retries)%nat ∧
    tr = request t beta timeout
           :: flat_map (retry t beta timeout wait) (seq 1 n) ++ tail ∧
    (tail = [] ∨ ∃ e, tail = [warning t e]) ∧
    (length (filter is_post tr) = n + 1)%nat.
Proof.
  intros tr. subst tr. unfold fetch_with_retries.
  replace (retries + 1)%nat with (S retries) by lia.
  destruct (attempts_shape t beta timeout retries wait retries 0%nat i)
    as (n & tail & o & Hn & -> & Htail); [lia|].
  exists n, tail. split; [lia|]. split; [done|]. split.
  - destruct Htail as [->|(e & -> & _)]; eauto.
  - unfold trace. cbn [fst]. rewrite filter_cons. cbn [is_post request].
    rewrite decide_True by done. cbn [length].
    rewrite filter_app, length_app, retries_posts, length_seq.
    destruct Htail as [->|(e & -> & _)].
    + rewrite filter_nil. cbn [length]. lia.
    + rewrite filter_cons, filter_nil. cbn [is_post warning].
      rewrite decide_False by (cbn; tauto). cbn [length]. lia.
Qed.

End retries.

Section loop.
Variable net : endpoint.

Lemma wait_nonneg (w : Qc) (k : nat) : (0 ≤ w)%Qc → ¬ (w * 2 ^ k < 0)%Qc.
Proof.
  intros Hw. apply Qcle_not_lt, Qcmult_nonneg_nonneg; [done|].
  by apply Qcpower_pos.
Qed.



Lemma fetch_with_retries_run t b to r w i :
  ∃ tr o, fetch_with_retries net t b to r w i = (request t b to :: tr, i, o).
Proof.
  unfold fetch_with_retries. replace (r + 1)%nat with (S r) by lia.
  destruct (attempts_shape net t b to r w r 0%nat i) as (n & tail & o & _ & -> & _);
    [lia|]. eauto.
Qed.

Lemma fetch_with_retries_first t b to r w i j :
  net t 0%nat = Json j →
  fetch_with_retries net t b to r w i = ([request t b to], i, Ret j).
Proof.
  intros H. unfold fetch_with_retries. replace (r + 1)%nat with (S r) by lia.
  by rewrite attempts_step, H.
Qed.

Lemma loop_cons a t ts seen i :
  loop net a (t :: ts) seen i =
    match step_of net a t i with
    | (tr, i', Ret data) =>
        if truthy data
        then
          match collect data seen with
          | inl e => (tr, i', Raise e)
          | inr seen' =>
              if decide (sleep_s a < 0)%Qc
              then (tr, i', Raise ValueError)
              else
                let r := loop net a ts seen' i' in
                (tr ++ EvSleep (sleep_s a) :: r.1.1, r.1.2, r.2)
          end
        else let r := loop net a ts seen i' in (tr ++ r.1.1, r.1.2, r.2)
    | (tr, i', Raise e) => (tr, i', Raise e)
    | (tr, i', Exit c) => (tr, i', Exit c)
    end.
Proof.
  cbn [loop]. unfold bind at 1. unfold step_of.
  destruct (fetch_with_retries _ _ _ _ _ _ i) as [[tr i'] [data|e|c]]; try done.
  destruct (truthy data); cbn [negb].
  - destruct (collect data seen) as [e|seen']; cbn [lift].
    + unfold bind, raise. by rewrite app_nil_r.
    + unfold bind, ret, sleep. case_decide.
      * unfold raise. by rewrite app_nil_r.
      * unfold emit. by destruct (loop net a ts seen' i') as [[??]?].
  - by destruct (loop net a ts seen i') as [[??]?].
Qed.

Lemma loop_stdin a ts : ∀ seen i, (loop net a ts seen i).1.2 = i.
Proof.
  induction ts as [|t ts IH]; intros seen i; [done|].
  rewrite loop_cons. unfold step_of.
  destruct (fetch_with_retries_run t (beta a) (timeout a) 2 (Q2Qc (2 # 10)) i)
    as (tr & o & ->).
  destruct o as [data|e|c]; try done.
  destruct (truthy data); [|apply IH].
  destruct (collect data seen); [done|]. case_decide; [done|apply IH].
Qed.



Lemma main_run a i :
  main net a i =
    match loop net a (seqZ (start a) (max a + 1 - start a)) ∅ i with
    | (tr, i', Ret seen) =>
        (tr ++ [EvWriteCsv (out a) (table (sorted seen));
                EvPrint [Lit "Wrote "; FInt (Z.of_nat (length (sorted seen)));
                         Lit " rows to "; FStr (out a)]], i', Ret tt)
    | (tr, i', Raise e) => (tr, i', Raise e)
    | (tr, i', Exit c) => (tr, i', Exit c)
    end.
Proof.
  unfold main, bind at 1.
  by destruct (loop net a _ ∅ i) as [[tr i'] [seen|e|c]].
Qed.

End loop.

Section failure.
Variable net : endpoint.



End failure.

Section table.
Variable net : endpoint.


(** *** Nothing but the end of [main] writes the file *)

Lemma attempts_no_csv t b to r w todo : ∀ attempt,
  emits (λ e, is_csv e = false) (attempts net t b to r w attempt todo).
Proof.
  induction todo as [|todo IH]; intros attempt; [apply emits_ret|].
  cbn [attempts]. apply emits_try.
  - unfold fetch. apply emits_bind; [by apply emits_emit|].
    intros _. destruct (net t attempt); auto using emits_ret, emits_raise.
  - intros e. case_bool_decide.
    + apply emits_bind; [by apply emits_emit|]. intros _. apply emits_ret.
    + apply emits_bind; [by apply emits_sleep|]. intros _. apply IH.
Qed.

Lemma loop_no_csv a ts : ∀ seen, emits (λ e, is_csv e = false) (loop net a ts seen).
Proof.
  induction ts as [|t ts IH]; intros seen; [apply emits_ret|].
  cbn [loop]. apply emits_bind; [apply attempts_no_csv|].
  intros data. destruct (negb (truthy data)); [apply IH|].
  apply emits_bind; [apply emits_lift|]. intros seen'.
  apply emits_bind; [by apply emits_sleep|]. intros _. apply IH.
Qed.

(** The file is written once, from the set the loop returns. *)
Lemma written a path content :
  EvWriteCsv path content ∈ (program net a).1 →
  ∃ seen,
    result (loop net a (seqZ (start a) (max a + 1 - start a)) ∅ []) = Ret seen ∧
    path = out a ∧ content = table (sorted seen).
Proof.
  unfold program. rewrite main_run.
  pose proof (loop_no_csv a (seqZ (start a) (max a + 1 - start a)) ∅ []) as Hno.
  unfold trace, result in *.
  destruct (loop net a _ ∅ []) as [[tr i'] [seen|e|c]]; cbn [fst snd] in *.
  - intros [Hin|Hin]%elem_of_app.
    + by apply (proj1 (Forall_forall _ _) Hno) in Hin.
    + apply elem_of_cons in Hin as [Heq|Hin]; [simplify_eq; eauto|].
      apply list_elem_of_singleton in Hin. done.
  - intros Hin. by apply (proj1 (Forall_forall _ _) Hno) in Hin.
  - intros Hin. by apply (proj1 (Forall_forall _ _) Hno) in Hin.
Qed.
End table.







(** C2, at a failing input: the reply to the first request is not JSON.
    [JSONDecodeError] is none of the classes the handler names, so it
    leaves [fetch_with_retries] and [main]: the run ends in a stack
    trace after one request, and no file is written. *)
Theorem invalid_json_stops_the_sweep :
  program Samples.garbled defaults =
    ([request 0 false (Q2Qc 10)], Traceback JSONDecodeError).
Proof. vm_compute. reflexivity. Qed.

(** C3, at a failing input: Type 0 fails through its retries and Type 1
    answers.  The request for Type 1 follows the warning at once: the
    [--sleep] delay is only taken after Type 1. *)
Theorem no_delay_after_failure :
  program Samples.offline0 Samples.two =
    (request 0 false (Q2Qc 10)
       :: retry 0 false (Q2Qc 10) (Q2Qc (2 # 10)) 1
       ++ retry 0 false (Q2Qc 10) (Q2Qc (2 # 10)) 2
       ++ [ warning 0 URLError;
            request 1 false (Q2Qc 10);
            EvSleep (Q2Qc (3 # 100));
            EvWriteCsv "out.csv" [header];
            EvPrint [Lit "Wrote "; FInt 0; Lit " rows to "; FStr "out.csv"] ],
     Exited 0).
Proof. vm_compute. reflexivity. Qed.

(** C9, at a failing input: Ctrl-C during the first request of the
    sweeper.  Nothing catches [KeyboardInterrupt] there, and the run ends
    in a stack trace. *)
Theorem sweeper_interrupt_is_a_traceback :
  program Samples.interrupted defaults =
    ([request 0 false (Q2Qc 10)], Traceback KeyboardInterrupt).
Proof. vm_compute. reflexivity. Qed.

End ScraperFacts.

(** ** The orchestrator *)

Module UpdaterFacts.
Import Py Proc ProcFacts Updater.
Local Open Scope proc_scope.

(** Unfold the plumbing of the monad, so that a run computes. *)
Ltac plumbing :=
  unfold try_except, bind, print, emit, lift, ret, raise, sys_exit, may_raise.

Section run.
Variable w : world.

Lemma program_exit i tr i' c :
  main w i = (tr, i', Exit c) → program w i = (tr, Exited c).
Proof. intros H. unfold program, guarded_main, try_except. by rewrite H. Qed.

Lemma fetch_firmware_list_run g b kv i :
  api w (type g) b = inr (JObj kv) →
  fetch_firmware_list w (type g) b i =
    if eq_one (default JNull (assoc "msgState" kv))
    then (asked g b, i, Ret (default (JArr []) (assoc "list" kv)))
    else (asked g b ++
            [EvPrint [Lit "Error from API: ";
                      FVal (default (JStr "Unknown error") (assoc "error" kv))]],
          i, Ret JNull).
Proof.
  intros Hapi. unfold fetch_firmware_list, try_except, bind, print, emit.
  rewrite Hapi. cbn [lift get ret].
  by destruct (eq_one _).
Qed.

Lemma fetch_stage_fails g b kv i :
  api w (type g) b = inr (JObj kv) →
  eq_one (default JNull (assoc "msgState" kv)) = false ∨
    truthy (default (JArr []) (assoc "list" kv)) = false →
  fetch_stage w g b i =
    (asked g b ++
       (if eq_one (default JNull (assoc "msgState" kv)) then []
        else [EvPrint [Lit "Error from API: ";
                       FVal (default (JStr "Unknown error") (assoc "error" kv))]]) ++
       [EvPrint [Lit "Failed to fetch firmware list. Exiting."]],
     i, Exit 1).
Proof.
  intros Hapi Hbad. unfold fetch_stage, bind at 1.
  rewrite (fetch_firmware_list_run g b kv i Hapi).
  destruct (eq_one _) eqn:Hstate.
  - destruct Hbad as [? | ->]; [done|]. done.
  - done.
Qed.


Lemma display_entries_offline l : emits offline (display_entries l).
Proof.
  induction l as [|[k g] l IH]; [apply emits_ret|].
  cbn [display_entries]. apply emits_bind; [by apply emits_emit|]. intros _. apply IH.
Qed.

Lemma choose_offline : emits offline (choose w).
Proof.
  unfold choose, print_header, display_gamepads, select_gamepad, print, may_raise.
  repeat first
    [ apply emits_ret | apply emits_raise | apply emits_exit
    | apply display_entries_offline
    | by apply emits_emit | by apply emits_input
    | apply emits_bind; [|intros ?]
    | apply emits_try; [|intros ?]
    | apply emits_ask_until; [done|intros ?]
    | match goal with
      | |- emits _ (match ?x with _ => _ end) => destruct x
      | |- Forall _ (match ?x with _ => _ end).1 => destruct x
      end ]; cbn; by repeat constructor.
Qed.

(** C7: the run has reached the fetch of the firmware list with gamepad
    [g] and beta answer [b], and the endpoint answers with an object
    whose [msgState] is not 1 or whose [list] is empty (or absent, or
    otherwise false).  Then the run consists of what came before, the
    announcement, one request, the line [Error from API: ...] when
    [msgState] is not 1, and the line [Failed to fetch firmware list.
    Exiting.]; it ends with exit status 1.  There is exactly one request
    in the whole run and no download. *)
Theorem failed_fetch_exits i tr0 i1 g b kv :
  choose w i = (tr0, i1, Ret (g, b)) →
  api w (type g) b = inr (JObj kv) →
  eq_one (default JNull (assoc "msgState" kv)) = false ∨
    truthy (default (JArr []) (assoc "list" kv)) = false →
  let cause :=
    if eq_one (default JNull (assoc "msgState" kv)) then []
    else [EvPrint [Lit "Error from API: ";
                   FVal (default (JStr "Unknown error") (assoc "error" kv))]] in
  let tr := tr0 ++ asked g b ++ cause ++
            [EvPrint [Lit "Failed to fetch firmware list. Exiting."]] in
  program w i = (tr, Exited 1) ∧
  length (filter is_post tr) = 1%nat ∧
  Forall (λ e, is_get e = false) tr.
Proof.
  intros Hchoose Hapi Hbad cause tr.
  pose proof (choose_offline i) as Hoff. rewrite Hchoose in Hoff. cbn in Hoff.
  split; [|split].
  - assert (main_to_download w i = (tr, i1, Exit 1)) as Hrun.
    { unfold main_to_download. rewrite (bind_ret _ _ _ _ _ _ Hchoose). cbn [fst snd].
      by rewrite (bind_exit _ _ _ _ _ _ (fetch_stage_fails g b kv i1 Hapi Hbad)). }
    apply (program_exit _ _ i1). unfold main.
    by rewrite (bind_exit _ _ _ _ _ _ Hrun).
  - subst tr. rewrite filter_app, length_app.
    replace (filter is_post tr0) with (@nil event).
    + subst cause. cbn. by destruct (eq_one _).
    + symmetry. apply elem_of_nil_inv. intros e [He Hin]%list_elem_of_filter.
      apply (proj1 (Forall_forall _ _) Hoff) in Hin as [Hp _].
      by rewrite Hp in He.
  - subst tr. apply Forall_app. split.
    + eapply Forall_impl; [done|]. by intros e [_ ?].
    + subst cause. destruct (eq_one _); by repeat constructor.
Qed.


(** *** Device discovery *)

Lemma prefix_8bit s : String.prefix "8bitdo" s = true → String.prefix "8bit" s = true.
Proof.
  do 4 (destruct s as [|? s]; [done|]; cbn [String.prefix];
        destruct (ascii_dec _ _); [|done]).
  intros _. by destruct s.
Qed.

Lemma contains_8bit s : contains "8bitdo" s = true → contains "8bit" s = true.
Proof.
  induction s as [|c s IH]; [done|]. cbn [contains].
  intros [H|H]%orb_true_iff; apply orb_true_iff; [left|right].
  - by apply prefix_8bit.
  - by apply IH.
Qed.

(** The test of the vendor comes to its second half. *)
Lemma brand_8bit vendor : brand vendor = contains "8bit" vendor.
Proof.
  unfold brand. destruct (contains "8bitdo" vendor) eqn:H; [|done].
  by rewrite (contains_8bit _ H).
Qed.

Lemma search_none ds i :
  Forall other_vendor ds →
  search ds i = ([EvPrint [Lit "No 8BitDo gamepad found."]], i, Ret JNull).
Proof.
  induction 1 as [|d ds (kv & vendor & -> & Hv & Hb) _ IH]; [reflexivity|].
  cbn [search get]. plumbing. rewrite Hv. cbn [lower_of]. by rewrite Hb, IH.
Qed.

Lemma get_gamepad_device_id_none kv ds i :
  devices_json w = Json (JObj kv) →
  default (JArr []) (assoc "Devices" kv) = JArr ds →
  Forall other_vendor ds →
  get_gamepad_device_id w i = (searched, i, Ret JNull).
Proof.
  intros Hj Hds Hall. unfold get_gamepad_device_id. plumbing.
  rewrite Hj. cbn [get]. rewrite Hds. cbn [iter].
  by rewrite (search_none ds i Hall).
Qed.

Lemma cleanup_run file answer rest :
  remove_raises_oserror w file →
  cleanup_firmware_file w file (Line answer :: rest) =
    (keep_prompt file :: removal w file answer, rest, Ret tt).
Proof.
  unfold remove_raises_oserror, removal, cleanup_firmware_file. intros Hrm.
  plumbing. cbn [input]. destruct (yes answer); cbn [negb]; [done|].
  destruct (remove w file) as [e|]; [|done].
  plumbing. unfold caught_by. cbn [existsb]. by rewrite Hrm.
Qed.

Lemma print_instructions_run enter rest :
  print_instructions (Line enter :: rest) = (instructions, rest, Ret tt).
Proof. done. Qed.

Lemma discovery_stage_none file enter answer rest kv ds :
  devices_json w = Json (JObj kv) →
  default (JArr []) (assoc "Devices" kv) = JArr ds →
  Forall other_vendor ds →
  remove_raises_oserror w file →
  discovery_stage w file (Line enter :: Line answer :: rest) =
    (instructions ++ searched ++ not_found :: keep_prompt file :: removal w file answer,
     rest, Exit 1).
Proof.
  intros Hj Hds Hall Hrm. unfold discovery_stage. unfold bind at 1.
  rewrite print_instructions_run. unfold bind at 1.
  rewrite (get_gamepad_device_id_none kv ds _ Hj Hds Hall).
  cbn [truthy negb]. plumbing.
  rewrite (cleanup_run file answer rest Hrm). cbn [app].
  by rewrite app_nil_r.
Qed.


(** *** The flashing tool is not run before Step 8 *)

Ltac quiet :=
  repeat first
    [ apply emits_ret | apply emits_raise | apply emits_exit | apply emits_lift
    | by apply emits_emit | by apply emits_input
    | apply emits_bind; [|intros ?]
    | apply emits_try; [|intros ?]
    | apply emits_ask_until; [done|intros ?]
    | match goal with
      | |- emits _ (match ?x with _ => _ end) => destruct x
      | |- emits _ (if ?x then _ else _) => destruct x
      | |- Forall _ (match ?x with _ => _ end).1 => destruct x
      | |- Forall _ (if ?x then _ else _).1 => destruct x
      | |- Forall _ (round_of ?x _).1 => destruct x; cbn [round_of]
      | |- Forall _ (fst (_, _)) => cbn [fst]; by repeat constructor
      end ].

Lemma display_entries_no_flash l : emits no_flash (display_entries l).
Proof.
  induction l as [|[k g] l IH]; [apply emits_ret|].
  cbn [display_entries]. apply emits_bind; [by apply emits_emit|]. intros _. apply IH.
Qed.

Lemma display_versions_no_flash l : ∀ idx, emits no_flash (display_versions idx l).
Proof.
  induction l as [|fw l IH]; intros idx; [apply emits_ret|].
  cbn [display_versions]. unfold print. quiet. apply IH.
Qed.

Lemma main_to_download_no_flash : emits no_flash (main_to_download w).
Proof.
  unfold main_to_download, choose, fetch_stage, download_stage, print_header,
    display_gamepads, select_gamepad, fetch_firmware_list, display_firmware_versions,
    select_firmware, download_firmware, print, may_raise.
  quiet. apply display_versions_no_flash.
Qed.


(** C8: the run has completed Step 4 with [file] on disk, the user
    presses Enter at the instructions and answers the cleanup question,
    and the device list holds no entry whose vendor, in lower case,
    contains the brand token.  Then the run goes on with the instructions,
    the search, [No 8BitDo gamepad found.], [Couldn't find your gamepad
    ...], the question whether to keep [file] and, unless the answer is
    yes, its removal; it ends with exit status 1, and the flashing tool is
    never run. *)
Theorem no_device_exits i tr0 file enter answer rest kv ds :
  main_to_download w i = (tr0, Line enter :: Line answer :: rest, Ret file) →
  devices_json w = Json (JObj kv) →
  default (JArr []) (assoc "Devices" kv) = JArr ds →
  Forall other_vendor ds →
  remove_raises_oserror w file →
  let tr := tr0 ++ instructions ++ searched
            ++ not_found :: keep_prompt file :: removal w file answer in
  program w i = (tr, Exited 1) ∧ Forall no_flash tr.
Proof.
  intros Hrun Hj Hds Hall Hrm tr. split.
  - apply (program_exit _ _ rest). unfold main.
    rewrite (bind_ret _ _ _ _ _ _ Hrun).
    by rewrite (bind_exit _ _ _ _ _ _
                  (discovery_stage_none file enter answer rest kv ds Hj Hds Hall Hrm)).
  - pose proof (main_to_download_no_flash i) as H0. rewrite Hrun in H0.
    subst tr. apply Forall_app. split; [done|].
    apply Forall_app. split; [by repeat constructor|].
    unfold removal. destruct (yes answer); [by repeat constructor|].
    destruct (remove w file); by repeat constructor.
Qed.

(** *** The confirmations *)







(** *** The guard *)

Lemma interrupt_exits_cleanly i tr i' :
  main w i = (tr, i', Raise KeyboardInterrupt) →
  program w i =
    (tr ++ [EvPrint [Lit (nl +:+ nl +:+ "Operation cancelled by user.")]], Exited 0).
Proof.
  intros H. unfold program, guarded_main, try_except. by rewrite H.
Qed.

Lemma never_interrupt_traceback i : (program w i).2 ≠ Traceback KeyboardInterrupt.
Proof.
  unfold program, guarded_main, try_except.
  destruct (main w i) as [[t i'] [[]|e|c]]; cbn; try done.
  destruct e; cbn; done.
Qed.

End run.

Lemma failed_fetch_exits_witness :
  ∃ tr,
    program Sessions.empty_list Sessions.typed = (tr, Exited 1) ∧
    length (filter is_post tr) = 1%nat ∧
    Forall (λ e, is_get e = false) tr.
Proof.
  eexists.
  apply (failed_fetch_exits Sessions.empty_list Sessions.typed
           (choose Sessions.empty_list Sessions.typed).1.1
           [Line "1"; Line ""; Line "n"]
           {| name := "Pro 2"; type := 33 |} false
           [("msgState", JNum 1); ("list", JArr [])]).
  - vm_compute. reflexivity.
  - reflexivity.
  - right. reflexivity.
Defined.

Lemma no_device_exits_witness :
  ∃ tr,
    program Sessions.no_device Sessions.typed = (tr, Exited 1) ∧ Forall no_flash tr.
Proof.
  eexists.
  apply (no_device_exits Sessions.no_device Sessions.typed
           (main_to_download Sessions.no_device Sessions.typed).1.1
           "a.dat" "" "n" []
           [("Devices", JArr [JObj [("Vendor", JStr "Intel"); ("DeviceId", JStr "abc")]])]
           [JObj [("Vendor", JStr "Intel"); ("DeviceId", JStr "abc")]]).
  - vm_compute. reflexivity.
  - reflexivity.
  - reflexivity.
  - constructor; [|constructor]. by eexists _, "Intel".
  - exact I.
Defined.


End UpdaterFacts.

Module RunCases.
Import Py Proc ProcFacts RunNotions.
Local Open Scope proc_scope.

Lemma emits_weaken {A} (P Q : event → Prop) (m : M A) :
  (∀ e, P e → Q e) → emits P m → emits Q m.
Proof. intros H Hm i. eapply Forall_impl; [apply Hm|done]. Qed.

(** The events after [m] may rely on what [m] returned. *)
Lemma emits_bind_at {A B} P (Q : A → Prop) (m : M A) (k : A → M B) :
  emits P m → returns Q m → (∀ a, Q a → emits P (k a)) → emits P (bind m k).
Proof.
  intros Hm Hq Hk i. specialize (Hm i). specialize (Hq i). unfold bind, trace, result in *.
  destruct (m i) as [[t i'] [a|e|c]]; simpl in *; try done.
  specialize (Hk a Hq i'). unfold trace in Hk.
  destruct (k a i') as [[t' i''] r]; simpl in *. by apply Forall_app.
Qed.

Lemma returns_ret {A} (Q : A → Prop) a : Q a → returns Q (ret a).
Proof. by intros H i. Qed.
Lemma returns_raise {A} (Q : A → Prop) e : returns Q (raise e).
Proof. by intros i. Qed.
Lemma returns_exit {A} (Q : A → Prop) c : returns Q (sys_exit c).
Proof. by intros i. Qed.
Lemma returns_bind {A B} (Q : B → Prop) (m : M A) (k : A → M B) :
  (∀ a, returns Q (k a)) → returns Q (bind m k).
Proof.
  intros Hk i. unfold bind, result.
  destruct (m i) as [[t i'] [a|e|c]]; simpl; try done.
  specialize (Hk a i'). unfold result in Hk. by destruct (k a i') as [[t' i''] r].
Qed.
Lemma returns_bind_at {A B} (R : A → Prop) (Q : B → Prop) (m : M A) (k : A → M B) :
  returns R m → (∀ a, R a → returns Q (k a)) → returns Q (bind m k).
Proof.
  intros Hm Hk i. specialize (Hm i). unfold bind, result in *.
  destruct (m i) as [[t i'] [a|e|c]]; simpl in *; try done.
  specialize (Hk a Hm i'). unfold result in Hk. by destruct (k a i') as [[t' i''] r].
Qed.
Lemma returns_try {A} (Q : A → Prop) (m : M A) cs h :
  returns Q m → (∀ e, returns Q (h e)) → returns Q (try_except m cs h).
Proof.
  intros Hm Hh i. specialize (Hm i). unfold try_except, result in *.
  destruct (m i) as [[t i'] [a|e|c]]; simpl in *; try done.
  destruct (caught_by cs e); [|done].
  specialize (Hh e i'). unfold result in Hh. by destruct (h e i') as [[t' i''] r].
Qed.
Lemma returns_ask_until {A} (Q : A → Prop) m
    (round : string → list event * outcome (option A)) :
  (∀ s a, (round s).2 = Ret (Some a) → Q a) → returns Q (ask_until m round).
Proof.
  intros Hr i. unfold result. induction i as [|[s|] i IH]; simpl; [done| |done].
  specialize (Hr (strip s)). destruct (round (strip s)) as [t [[a|]|e|c]]; simpl in *;
    try done.
  - by apply Hr.
  - by destruct (ask_until m round i) as [[t' i''] r].
Qed.

Lemma exits_ret {A} cs (a : A) : exits_with cs (ret a).
Proof. by intros i c. Qed.
Lemma exits_raise {A} cs e : exits_with cs (@raise A e).
Proof. by intros i c. Qed.
Lemma exits_exit {A} cs c : c ∈ cs → exits_with cs (@sys_exit A c).
Proof. intros H i c' [= <-]. done. Qed.
Lemma exits_lift {A} cs (x : exn + A) : exits_with cs (lift x).
Proof. destruct x; [apply exits_raise | apply exits_ret]. Qed.
Lemma exits_emit cs e : exits_with cs (emit e).
Proof. by intros i c. Qed.
Lemma exits_input cs m : exits_with cs (input m).
Proof. by intros [|[s|] i] c. Qed.
Lemma exits_bind {A B} cs (m : M A) (k : A → M B) :
  exits_with cs m → (∀ a, exits_with cs (k a)) → exits_with cs (bind m k).
Proof.
  intros Hm Hk i c. specialize (Hm i c). unfold bind, result in *.
  destruct (m i) as [[t i'] [a|e|c']]; simpl in *;
    [|done|intros [= ->]; by apply Hm].
  specialize (Hk a i' c). unfold result in Hk.
  destruct (k a i') as [[t' i''] r]; simpl in *. done.
Qed.
Lemma exits_try {A} cs (m : M A) hs h :
  exits_with cs m → (∀ e, exits_with cs (h e)) → exits_with cs (try_except m hs h).
Proof.
  intros Hm Hh i c. specialize (Hm i c). unfold try_except, result in *.
  destruct (m i) as [[t i'] [a|e|c']]; simpl in *; try done.
  destruct (caught_by hs e); [|done].
  specialize (Hh e i' c). unfold result in Hh.
  destruct (h e i') as [[t' i''] r]; simpl in *. done.
Qed.
Lemma exits_ask_until {A} cs m (round : string → list event * outcome (option A)) :
  (∀ s c, (round s).2 = Exit c → c ∈ cs) → exits_with cs (ask_until m round).
Proof.
  intros Hr i c. unfold result. induction i as [|[s|] i IH]; simpl; [done| |done].
  specialize (Hr (strip s) c). destruct (round (strip s)) as [t [[a|]|e|c']]; simpl in *;
    [done| |done|intros [= ->]; by apply Hr].
  destruct (ask_until m round i) as [[t' i''] r]; simpl in *. done.
Qed.

(** *** The prompt loops *)

Lemma ask_until_again {A} m (round : string → list event * outcome (option A)) s t rest :
  round (strip s) = (t, Ret None) →
  ask_until m round (Line s :: rest) =
    let r := ask_until m round rest in (EvPrompt m :: t ++ r.1.1, r.1.2, r.2).
Proof.
  intros H. cbn [ask_until]. rewrite H.
  by destruct (ask_until m round rest) as [[??]?].
Qed.

Lemma ask_until_done {A} m (round : string → list event * outcome (option A)) s t a rest :
  round (strip s) = (t, Ret (Some a)) →
  ask_until m round (Line s :: rest) = (EvPrompt m :: t, rest, Ret a).
Proof. intros H. cbn [ask_until]. by rewrite H. Qed.

Lemma ask_until_rounds {A} m (round : string → list event * outcome (option A))
    (again : string → list event) bad i :
  Forall (λ s, round (strip s) = (again s, Ret None)) bad →
  ask_until m round ((Line <$> bad) ++ i) =
    let r := ask_until m round i in
    (flat_map (λ s, EvPrompt m :: again s) bad ++ r.1.1, r.1.2, r.2).
Proof.
  induction 1 as [|s bad Hs _ IH].
  { cbn. by destruct (ask_until m round i) as [[??]?]. }
  cbn [fmap list_fmap app]. rewrite (ask_until_again _ _ _ _ _ Hs), IH.
  cbn. by rewrite <- app_assoc.
Qed.

End RunCases.

(** ** The sweeper: retries, edges and what a run leaves behind *)

Module ScraperCases.
Import Py Proc ProcFacts RunNotions RunCases Scraper ScraperFacts SweepNotions.
Local Open Scope proc_scope.

Section net.
Variable net : endpoint.

(** After [k] replies that are retried, the next one settles the call. *)
Lemma attempts_settle t b to r w k : ∀ attempt todo i,
  (attempt + S todo = r + 1)%nat →
  (k ≤ todo)%nat →
  (0 ≤ w)%Qc →
  (∀ n, (attempt ≤ n < attempt + k)%nat → retried (net t n) = true) →
  retried (net t (attempt + k)%nat) = false →
  attempts net t b to r w attempt (S todo) i =
    (request t b to :: flat_map (retry t b to w) (seq (S attempt) k), i,
     fetched (net t (attempt + k)%nat)).
Proof.
  induction k as [|k IH]; intros attempt todo i Hsum Hk Hw Hfail Hlast;
    rewrite attempts_step.
  - rewrite Nat.add_0_r in *. unfold retried, fetched in *.
    destruct (net t attempt) as [j| |e]; [done..|]. by rewrite Hlast.
  - pose proof (Hfail attempt ltac:(lia)) as H0. unfold retried in H0.
    destruct (net t attempt) as [j| |e]; [done..|]. rewrite H0.
    rewrite bool_decide_false by lia.
    rewrite decide_False by by apply wait_nonneg.
    destruct todo as [|todo]; [lia|].
    rewrite (IH (S attempt) todo i); [|lia|lia|done|..].
    + cbn [seq flat_map retry fst snd app].
      replace (S attempt - 1)%nat with attempt by lia.
      by replace (S attempt + k)%nat with (attempt + S k)%nat by lia.
    + intros n Hn. apply Hfail. lia.
    + by replace (S attempt + k)%nat with (attempt + S k)%nat by lia.
Qed.

(** X1: the first [k] requests for a Type fail with an exception the handler
    of [fetch_with_retries] names, [k] is at most the number of retries, and
    request number [k] is answered.  Then the call returns that answer after
    [k + 1] requests, having waited [wait * 2 ^ (n - 1)] before retry [n],
    and prints no warning. *)
Theorem retry_recovers t beta timeout retries wait k j i :
  (k ≤ retries)%nat →
  (0 ≤ wait)%Qc →
  (∀ n, (n < k)%nat → retried (net t n) = true) →
  net t k = Json j →
  fetch_with_retries net t beta timeout retries wait i =
    (request t beta timeout :: flat_map (retry t beta timeout wait) (seq 1 k), i, Ret j).
Proof.
  intros Hk Hw Hfail Hj. unfold fetch_with_retries.
  replace (retries + 1)%nat with (S retries) by lia.
  rewrite (attempts_settle t beta timeout retries wait k 0 retries i);
    cbn [Nat.add]; [by rewrite Hj|lia|lia|done|..].
  - intros n Hn. apply Hfail. lia.
  - by rewrite Hj.
Qed.

(** X2: after [k] failures that are retried, the next request ends otherwise
    than in an answer or an exception the handler names (the reply is not
    JSON, or the exception is of another class).  Then that exception leaves
    [fetch_with_retries] at once: no further request, no wait, no warning. *)
Theorem other_errors_are_not_retried t beta timeout retries wait k i :
  (k ≤ retries)%nat →
  (0 ≤ wait)%Qc →
  (∀ n, (n < k)%nat → retried (net t n) = true) →
  (∀ j, net t k ≠ Json j) →
  retried (net t k) = false →
  ∃ e,
    fetched (net t k) = Raise e ∧
    caught_by transient e = false ∧
    fetch_with_retries net t beta timeout retries wait i =
      (request t beta timeout :: flat_map (retry t beta timeout wait) (seq 1 k), i,
       Raise e).
Proof.
  intros Hk Hw Hfail Hnot Hlast.
  assert (∃ e, fetched (net t k) = Raise e ∧ caught_by transient e = false)
    as (e & He & Hc).
  { unfold fetched, retried in *. destruct (net t k) as [j| |e]; [by destruct (Hnot j)|..];
      eauto. }
  exists e. split; [done|]. split; [done|]. unfold fetch_with_retries.
  replace (retries + 1)%nat with (S retries) by lia.
  rewrite (attempts_settle t beta timeout retries wait k 0 retries i);
    cbn [Nat.add]; [by rewrite <-He|lia|lia|done|..]; [|done].
  intros n Hn. apply Hfail. lia.
Qed.

(** *** Empty range *)


(** *** What a response adds *)

Lemma add_items_incomplete items seen :
  Forall incomplete items → add_items items seen = inr seen.
Proof.
  induction 1 as [|item items (kv & name & -> & Hname & Hor) _ IH]; [done|].
  cbn [add_items]. unfold add_item. cbn [get mbind raise_bind]. rewrite Hname.
  cbn [mbind raise_bind].
  destruct Hor as [-> | ->]; [done|].
  cbn [is_none negb]. by rewrite andb_false_r.
Qed.

(** X4: an item whose file name is missing, null or blank, or whose type is
    missing or null, adds nothing: a response made of such items leaves the
    set of pairs as it was, and raises nothing. *)
Theorem incomplete_items_are_passed_over kv items seen :
  or_else (default JNull (assoc "list" kv)) (JArr []) = JArr items →
  Forall incomplete items →
  collect (JObj kv) seen = inr seen.
Proof.
  intros Hl Hall. unfold collect. cbn [get mbind raise_bind]. rewrite Hl.
  cbn [iter mbind raise_bind]. by apply add_items_incomplete.
Qed.

(** *** Names in the accumulator *)

Lemma lstrip_head c s : isspace c = false → lstrip (String c s) = String c s.
Proof. intros H. cbn. by rewrite H. Qed.

Lemma rstrip_head c s :
  rstrip (String c s) = "" ∨ ∃ r, rstrip (String c s) = String c r.
Proof.
  cbn [rstrip]. destruct (rstrip s); [|eauto].
  destruct (isspace c); eauto.
Qed.

Lemma rstrip_idemp s : rstrip (rstrip s) = rstrip s.
Proof.
  induction s as [|c s IH]; [done|]. cbn [rstrip].
  destruct (rstrip s) as [|d r] eqn:Hr.
  - destruct (isspace c) eqn:Hc; [done|]. cbn. by rewrite Hc.
  - cbn [rstrip]. cbn [rstrip] in IH.
    destruct (match rstrip r with "" => _ | _ => _ end) eqn:Hm; [done|].
    by rewrite IH.
Qed.

Lemma lstrip_head_cases s :
  lstrip s = "" ∨ ∃ c r, lstrip s = String c r ∧ isspace c = false.
Proof.
  induction s as [|c s IH]; [by left|]. cbn.
  destruct (isspace c) eqn:Hc; [done|]. right. eauto.
Qed.

Lemma strip_idemp s : strip (strip s) = strip s.
Proof.
  unfold strip. destruct (lstrip_head_cases s) as [E|(c & r & E & Hc)]; rewrite E;
    [done|].
  pose proof (rstrip_idemp (String c r)) as Hid.
  destruct (rstrip_head c r) as [E2|(r' & E2)]; rewrite E2 in *; [done|].
  by rewrite lstrip_head.
Qed.

Lemma add_item_tidy item seen seen' :
  (∀ p, p ∈ seen → tidy p.1) →
  add_item item seen = inr seen' →
  ∀ p, p ∈ seen' → tidy p.1.
Proof.
  unfold add_item. intros Hseen H.
  destruct (get "fileName" JNull item) as [|fn]; [done|]. cbn in H.
  unfold strip_of in H. destruct (or_else fn (JStr "")) as [| | |s| |]; try done.
  cbn in H.
  destruct (get "type" JNull item) as [|typ]; [done|]. cbn in H.
  case_bool_decide as Hname; cbn [negb andb] in H; [by simplify_eq|].
  destruct (is_none typ); cbn [negb] in H; [by simplify_eq|].
  destruct (int typ) as [|n]; [done|]. cbn in H. simplify_eq.
  intros p [->%elem_of_singleton|?]%elem_of_union; [|by apply Hseen].
  split; [done|apply strip_idemp].
Qed.

Lemma add_items_tidy items : ∀ seen seen',
  (∀ p, p ∈ seen → tidy p.1) →
  add_items items seen = inr seen' →
  ∀ p, p ∈ seen' → tidy p.1.
Proof.
  induction items as [|item items IH]; intros seen seen' Hseen H.
  { cbn in H. by simplify_eq. }
  cbn in H. destruct (add_item item seen) as [|mid] eqn:Hitem; [done|]. cbn in H.
  eapply IH; [|done]. by eapply add_item_tidy.
Qed.

Lemma collect_tidy data seen seen' :
  (∀ p, p ∈ seen → tidy p.1) →
  collect data seen = inr seen' →
  ∀ p, p ∈ seen' → tidy p.1.
Proof.
  unfold collect. intros Hseen H.
  destruct (get "list" JNull data) as [|l]; [done|]. cbn in H.
  destruct (iter (or_else l (JArr []))) as [|items]; [done|]. cbn in H.
  by eapply add_items_tidy.
Qed.

Lemma loop_tidy a ts : ∀ seen i tr i' acc,
  (∀ p, p ∈ seen → tidy p.1) →
  loop net a ts seen i = (tr, i', Ret acc) →
  ∀ p, p ∈ acc → tidy p.1.
Proof.
  induction ts as [|t ts IH]; intros seen i tr i' acc Hseen Hrun.
  { cbn in Hrun. unfold ret in Hrun. by simplify_eq. }
  rewrite loop_cons in Hrun.
  destruct (step_of net a t i) as [[tr0 i0] [data|e|c]]; try done.
  destruct (truthy data).
  - destruct (collect data seen) as [|mid] eqn:Hc; [done|]. case_decide; [done|].
    destruct (loop net a ts mid i0) as [[tr1 i1] r1] eqn:Hl. simplify_eq/=.
    eapply IH; [|done]. by eapply collect_tidy.
  - destruct (loop net a ts seen i0) as [[tr1 i1] r1] eqn:Hl. simplify_eq/=.
    by eapply IH.
Qed.

(** X5: every row of the written file is the header or a name with a type,
    where the name is not empty and carries no white space at either end. *)
Theorem written_names_are_tidy a path content r :
  EvWriteCsv path content ∈ (program net a).1 →
  r ∈ content →
  r = header ∨ ∃ name type, r = [CStr name; CInt type] ∧ tidy name.
Proof.
  intros (seen & Hseen & _ & ->)%written Hr. unfold result in Hseen.
  destruct (loop net a _ ∅ []) as [[tr i'] o] eqn:Hrun. cbn in Hseen. subst o.
  unfold table in Hr. apply elem_of_cons in Hr as [->|Hr]; [by left|]. right.
  apply list_elem_of_fmap in Hr as ([name type] & -> & Hp%elem_of_sorted).
  exists name, type. split; [done|].
  by apply (loop_tidy _ _ _ _ _ _ _ (λ p (H : p ∈ (∅ : gset pair)),
              False_ind _ (not_elem_of_empty p H)) Hrun (name, type)).
Qed.

(** *** The requests of a run *)

Lemma attempts_posts t b to r w todo : ∀ attempt,
  emits (λ e, is_post e = true → e = request t b to)
    (attempts net t b to r w attempt todo).
Proof.
  induction todo as [|todo IH]; intros attempt; [apply emits_ret|].
  cbn [attempts]. apply emits_try.
  - unfold fetch. apply emits_bind; [by apply emits_emit|].
    intros _. destruct (net t attempt); auto using emits_ret, emits_raise.
  - intros e. case_bool_decide.
    + apply emits_bind; [by apply emits_emit|]. intros _. apply emits_ret.
    + apply emits_bind; [by apply emits_sleep|]. intros _. apply IH.
Qed.

Lemma loop_posts a ts : ∀ seen,
  emits (λ e, is_post e = true → ∃ t, t ∈ ts ∧ e = request t (beta a) (timeout a))
    (loop net a ts seen).
Proof.
  induction ts as [|t ts IH]; intros seen; [apply emits_ret|].
  assert (∀ seen',
    emits (λ e, is_post e = true →
                ∃ t', t' ∈ t :: ts ∧ e = request t' (beta a) (timeout a))
      (loop net a ts seen')) as IH'.
  { intros seen'. eapply emits_weaken; [|apply IH].
    intros e H He. destruct (H He) as (t' & ? & ->). exists t'. split; [|done].
    apply elem_of_cons. by right. }
  cbn [loop]. apply emits_bind.
  - eapply emits_weaken; [|apply attempts_posts].
    intros e H He. exists t. split; [apply elem_of_cons; by left|by apply H].
  - intros data. destruct (negb (truthy data)); [apply IH'|].
    apply emits_bind; [apply emits_lift|]. intros seen'.
    apply emits_bind; [by apply emits_sleep|]. intros _. apply IH'.
Qed.

(** X6: every request of a run carries a Type between [--start] and
    [--max], with the Beta header and the timeout of the command line. *)
Theorem requests_stay_in_range a : Forall (in_range a) (program net a).1.
Proof.
  unfold program. cbn [fst]. unfold main.
  apply emits_bind.
  - eapply emits_weaken; [|apply loop_posts].
    intros e H He. destruct (H He) as (t & Ht%elem_of_seqZ & ->).
    exists t. split; [lia|done].
  - intros seen. apply emits_bind; [by apply emits_emit|]. intros _.
    by apply emits_emit.
Qed.

(** *** How a run ends *)




Lemma first_step a t ts seen i data :
  net t 0%nat = Json data →
  truthy data = true →
  loop net a (t :: ts) seen i =
    match collect data seen with
    | inl e => ([request t (beta a) (timeout a)], i, Raise e)
    | inr seen' =>
        if decide (sleep_s a < 0)%Qc
        then ([request t (beta a) (timeout a)], i, Raise ValueError)
        else
          let r := loop net a ts seen' i in
          (request t (beta a) (timeout a) :: EvSleep (sleep_s a) :: r.1.1, r.1.2, r.2)
    end.
Proof.
  intros Hnet Hdata. rewrite loop_cons. unfold step_of.
  rewrite (fetch_with_retries_first net _ _ _ _ _ _ data Hnet), Hdata.
  destruct (collect data seen); [done|]. case_decide; [done|].
  by destruct (loop net a ts _ i) as [[??]?].
Qed.


(** X9: with a negative [--sleep], the first Type that is answered with data
    ends the run: [time.sleep] raises [ValueError] after that one request,
    and no file is written. *)
Theorem negative_sleep_is_a_traceback a data seen :
  start a ≤ max a →
  (sleep_s a < 0)%Qc →
  net (start a) 0%nat = Json data →
  truthy data = true →
  collect data ∅ = inr seen →
  program net a = ([request (start a) (beta a) (timeout a)], Traceback ValueError).
Proof.
  intros Hr Hs Hnet Hdata Hc. unfold program. rewrite main_run.
  rewrite seqZ_cons by lia. rewrite (first_step _ _ _ _ _ data Hnet Hdata), Hc.
  by rewrite decide_True.
Qed.






End net.

Lemma retry_recovers_witness :
  fetch_with_retries SweepSamples.flaky 7 false (Q2Qc 10) 2 (Q2Qc (2 # 10)) [] =
    (request 7 false (Q2Qc 10)
       :: flat_map (retry 7 false (Q2Qc 10) (Q2Qc (2 # 10))) (seq 1 1),
     [], Ret Samples.list2).
Proof.
  apply (retry_recovers SweepSamples.flaky 7 false (Q2Qc 10) 2 (Q2Qc (2 # 10)) 1).
  - lia.
  - by vm_compute.
  - intros n Hn. by replace n with 0%nat by lia.
  - reflexivity.
Defined.

Lemma other_errors_are_not_retried_witness :
  ∃ e,
    fetched (Samples.garbled 0 0%nat) = Raise e ∧
    caught_by transient e = false ∧
    fetch_with_retries Samples.garbled 0 false (Q2Qc 10) 2 (Q2Qc (2 # 10)) [] =
      (request 0 false (Q2Qc 10)
         :: flat_map (retry 0 false (Q2Qc 10) (Q2Qc (2 # 10))) (seq 1 0),
       [], Raise e).
Proof.
  apply (other_errors_are_not_retried Samples.garbled 0 false (Q2Qc 10) 2
           (Q2Qc (2 # 10)) 0).
  - lia.
  - by vm_compute.
  - intros n Hn. lia.
  - by intros j.
  - reflexivity.
Defined.


Lemma incomplete_items_are_passed_over_witness :
  collect (JObj SweepSamples.partial) Samples.found = inr Samples.found.
Proof.
  apply (incomplete_items_are_passed_over SweepSamples.partial
           [Samples.entry "  " (JNum 1); Samples.entry "a.bin" JNull]).
  - reflexivity.
  - constructor; [|constructor; [|constructor]].
    + eexists _, "". split; [reflexivity|]. split; [reflexivity|]. by left.
    + eexists _, "a.bin". split; [reflexivity|]. split; [reflexivity|]. by right.
Defined.

Lemma written_names_are_tidy_witness :
  [CStr "b.bin"; CInt 2] = header ∨
  ∃ name type, [CStr "b.bin"; CInt 2] = [CStr name; CInt type] ∧ tidy name.
Proof.
  apply (written_names_are_tidy Samples.net Samples.few "out.csv" Samples.file).
  - apply (list_elem_of_lookup_2 _ 10). vm_compute. reflexivity.
  - apply (list_elem_of_lookup_2 _ 3). reflexivity.
Defined.


Lemma negative_sleep_is_a_traceback_witness :
  program Samples.net SweepSamples.hasty =
    ([request 1 false (Q2Qc 10)], Traceback ValueError).
Proof.
  apply (negative_sleep_is_a_traceback Samples.net SweepSamples.hasty Samples.list1
           {[ ("b.bin", 2); ("A.bin", 5) ]}).
  - cbn. lia.
  - by vm_compute.
  - reflexivity.
  - reflexivity.
  - vm_compute. reflexivity.
Defined.


End ScraperCases.

Module UpdaterCases.
Import Py Proc ProcFacts RunNotions RunCases Updater UpdaterFacts UpdateNotions.
Local Open Scope proc_scope.

(** *** The prompt loops *)

Lemma select_gamepad_rounds bad i :
  Forall unlisted bad →
  select_gamepad ((Line <$> bad) ++ i) =
    let r := select_gamepad i in
    (flat_map (λ _, refused) bad ++ r.1.1, r.1.2, r.2).
Proof.
  intros H. unfold select_gamepad.
  rewrite (ask_until_rounds _ _
             (λ _, [EvPrint [Lit ("Invalid selection. Please try again." +:+ nl)]]) bad i).
  - done.
  - eapply Forall_impl; [done|]. intros s Hs. unfold unlisted in Hs. by rewrite Hs.
Qed.

Lemma entry_listed k : ∀ l g, entry k l = Some g → (k, g) ∈ l.
Proof.
  induction l as [|[k' g'] l IH]; intros g H; [done|].
  cbn in H. case_bool_decide; simplify_eq.
  - apply elem_of_cons. by left.
  - apply elem_of_cons. right. by apply IH.
Qed.


Lemma select_gamepad_listed : returns listed select_gamepad.
Proof.
  apply returns_ask_until. intros s g.
  destruct (entry s GAMEPADS) as [g'|] eqn:Hs; [|done].
  intros [= <-]. exists s. by apply entry_listed.
Qed.




Lemma select_firmware_listed l : returns (λ v, v = JNull ∨ v ∈ l) (select_firmware (JArr l)).
Proof.
  apply returns_ask_until. intros s v. cbn zeta.
  case_bool_decide; [intros [= <-]; by left|].
  destruct (int_of_str s) as [n|]; [|by cbn].
  destruct (0 <=? n - 1); [|by cbn]. cbn [len round_of].
  destruct (n - 1 <? _); [|by cbn]. cbn [item].
  destruct (l !! Z.to_nat (n - 1)) as [fw|] eqn:Hfw; [|by cbn]. cbn [round_of snd].
  intros [= <-]. right. by eapply list_elem_of_lookup_2.
Qed.

(** X12: whatever is typed, what [select_firmware] returns is [None] or an
    entry of the list it was given. *)
Theorem chosen_firmware_is_listed l i :
  match result (select_firmware (JArr l) i) with
  | Ret v => v = JNull ∨ v ∈ l
  | _ => True
  end.
Proof. apply select_firmware_listed. Qed.



(** *** Device discovery *)

(** X15: the search of the device list settles on the first device whose
    vendor, in lower case, contains the brand token: it prints that device's
    name, version and identifier and returns its [DeviceId] ([None] when the
    device has none).  Devices after it are not looked at. *)
Theorem first_matching_device_wins pre kv vendor post i :
  Forall other_vendor pre →
  default (JStr "") (assoc "Vendor" kv) = JStr vendor →
  brand (lower vendor) = true →
  search (pre ++ JObj kv :: post) i =
    (found_device kv, i, Ret (default JNull (assoc "DeviceId" kv))).
Proof.
  intros Hpre Hv Hb.
  induction Hpre as [|d pre (kv' & vendor' & -> & Hv' & Hb') _ IH].
  - cbn [app search get]. plumbing. rewrite Hv. cbn [lower_of]. by rewrite Hb.
  - cbn [app search get]. plumbing. rewrite Hv'. cbn [lower_of]. by rewrite Hb', IH.
Qed.

Lemma search_raises l : ∀ i e, result (search l i) = Raise e → e = AttributeError.
Proof.
  induction l as [|d l IH]; intros i e; [done|].
  cbn [search]. plumbing. destruct d as [| | | | |kv]; try by intros [= <-].
  cbn [get]. destruct (default (JStr "") (assoc "Vendor" kv)) as [| | |s| |];
    try by intros [= <-].
  cbn [lower_of]. destruct (brand (lower s)); [done|].
  specialize (IH i e). unfold result in *.
  destruct (search l i) as [[t i'] r]. by cbn in *.
Qed.

Lemma nearby_id_line lines i d : nearby_id lines i = Some d → device_line lines d.
Proof.
  unfold nearby_id.
  destruct (list_find _ _) as [[k line]|] eqn:Hfind; [|done].
  intros [= <-]. apply list_find_Some in Hfind as (Hk & Hline & _).
  exists line. split; [|done].
  apply list_elem_of_lookup_2 in Hk. by apply subseteq_take, subseteq_drop in Hk.
Qed.

Lemma scan_returns lines rest : ∀ i device_id,
  (∀ d, device_id = Some d → device_line lines d) →
  returns (λ v, v = JNull ∨ ∃ d, v = JStr d ∧ d ≠ "" ∧ device_line lines d)
    (scan lines i rest device_id).
Proof.
  induction rest as [|line rest IH]; intros i device_id Hdev; [by left|].
  cbn [scan]. destruct (contains _ _); [|by apply IH].
  destruct (nearby_id lines i) as [d|] eqn:Hnear.
  - destruct d as [|c d].
    + apply IH. intros d [= <-]. by apply (nearby_id_line _ i).
    + apply returns_bind. intros _. apply returns_ret. right. eexists. split; [done|].
      split; [done|]. by apply (nearby_id_line _ i).
  - destruct device_id as [[|c d]|].
    + by apply IH.
    + apply returns_bind. intros _. apply returns_ret. right. eexists. split; [done|].
      split; [done|]. by apply Hdev.
    + by apply IH.
Qed.

Lemma scan_unbranded lines rest : ∀ i device_id j,
  Forall (λ line, contains "8bitdo" (lower line) = false) rest →
  scan lines i rest device_id j = ([], j, Ret JNull).
Proof.
  induction rest as [|line rest IH]; intros i device_id j Hall; [done|].
  apply Forall_cons in Hall as [Hline Hall]. cbn [scan]. rewrite Hline. by apply IH.
Qed.

(** *** The loops over the catalog, the versions and the devices *)

Section printing.
Variable P : event → Prop.
Hypothesis prints : ∀ m, P (EvPrint m).

Lemma display_entries_emits l : emits P (display_entries l).
Proof.
  induction l as [|[k g] l IH]; [apply emits_ret|].
  cbn [display_entries]. apply emits_bind; [by apply emits_emit|]. intros _. apply IH.
Qed.

Lemma display_versions_emits l : ∀ idx, emits P (display_versions idx l).
Proof.
  induction l as [|fw l IH]; intros idx; [apply emits_ret|].
  cbn [display_versions]. unfold print.
  repeat (apply emits_bind; [first [apply emits_lift|by apply emits_emit]|intros ?]).
  apply IH.
Qed.

Lemma search_emits l : emits P (search l).
Proof.
  induction l as [|d l IH]; cbn [search]; unfold print.
  { apply emits_bind; [by apply emits_emit|]. intros _. apply emits_ret. }
  repeat (apply emits_bind; [apply emits_lift|intros ?]).
  destruct (brand _); [|apply IH].
  repeat (apply emits_bind; [first [apply emits_lift|by apply emits_emit]|intros ?]).
  apply emits_ret.
Qed.

Lemma scan_emits lines rest : ∀ i device_id, emits P (scan lines i rest device_id).
Proof.
  induction rest as [|line rest IH]; intros i device_id; [apply emits_ret|].
  cbn [scan]. destruct (contains _ _); [|apply IH].
  destruct (match nearby_id lines i with Some d => Some d | None => device_id end)
    as [[|c d]|]; try apply IH.
  unfold print. apply emits_bind; [by apply emits_emit|]. intros _. apply emits_ret.
Qed.
End printing.

Lemma display_entries_stays cs l : exits_with cs (display_entries l).
Proof.
  induction l as [|[k g] l IH]; [apply exits_ret|].
  cbn [display_entries]. apply exits_bind; [apply exits_emit|]. intros _. apply IH.
Qed.

Lemma display_versions_stays cs l : ∀ idx, exits_with cs (display_versions idx l).
Proof.
  induction l as [|fw l IH]; intros idx; [apply exits_ret|].
  cbn [display_versions]. unfold print.
  repeat (apply exits_bind; [first [apply exits_lift|apply exits_emit]|intros ?]).
  apply IH.
Qed.

Lemma search_stays cs l : exits_with cs (search l).
Proof.
  induction l as [|d l IH]; cbn [search]; unfold print.
  { apply exits_bind; [apply exits_emit|]. intros _. apply exits_ret. }
  repeat (apply exits_bind; [apply exits_lift|intros ?]).
  destruct (brand _); [|apply IH].
  repeat (apply exits_bind; [first [apply exits_lift|apply exits_emit]|intros ?]).
  apply exits_ret.
Qed.

Lemma scan_stays cs lines rest : ∀ i device_id, exits_with cs (scan lines i rest device_id).
Proof.
  induction rest as [|line rest IH]; intros i device_id; [apply exits_ret|].
  cbn [scan]. destruct (contains _ _); [|apply IH].
  destruct (match nearby_id lines i with Some d => Some d | None => device_id end)
    as [[|c d]|]; try apply IH.
  unfold print. apply exits_bind; [apply exits_emit|]. intros _. apply exits_ret.
Qed.

(** Every event of a stretch of the program satisfies a property that
    all output and all prompts have. *)
Ltac hush :=
  repeat first
    [ apply emits_ret | apply emits_raise | apply emits_exit | apply emits_lift
    | apply display_entries_emits; done
    | apply display_versions_emits; done
    | apply search_emits; done
    | apply scan_emits; done
    | by apply emits_emit | by apply emits_input
    | apply emits_bind; [|intros ?]
    | apply emits_try; [|intros ?]
    | apply emits_ask_until; [done|intros ?]
    | match goal with
      | |- emits _ (match ?x with _ => _ end) => destruct x
      | |- emits _ (if ?x then _ else _) => destruct x
      | |- Forall _ (match ?x with _ => _ end).1 => destruct x
      | |- Forall _ (if ?x then _ else _).1 => destruct x
      | |- Forall _ (round_of ?x _).1 => destruct x; cbn [round_of]
      | |- Forall _ (fst (_, _)) => cbn [fst]; by repeat constructor
      end ].

(** A stretch of the program leaves through [sys.exit] with one of the
    given statuses only. *)
Ltac stay :=
  repeat first
    [ apply exits_ret | apply exits_raise | apply exits_lift | apply exits_emit
    | apply exits_input
    | apply display_entries_stays
    | apply display_versions_stays
    | apply search_stays
    | apply scan_stays
    | apply exits_exit; set_solver
    | apply exits_bind; [|intros ?]
    | apply exits_try; [|intros ?]
    | apply exits_ask_until; intros ? ?
    | match goal with
      | |- exits_with _ (match ?x with _ => _ end) => destruct x
      | |- exits_with _ (if ?x then _ else _) => destruct x
      | |- (match ?x with _ => _ end).2 = _ → _ => destruct x
      | |- (if ?x then _ else _).2 = _ → _ => destruct x
      | |- (round_of ?x _).2 = _ → _ => destruct x; cbn [round_of]
      | |- snd (_, _) = _ → _ => cbn [snd]; done
      end ].

(** An event that is none of a list written out. *)
Ltac absent :=
  let H := fresh in
  intros H; rewrite ?elem_of_cons, ?elem_of_nil in H; decompose [or] H; done.

Section run.
Variable w : world.

Lemma choose_run i :
  fwupdmgr_version w = None →
  choose w i =
    match select_gamepad i with
    | (t, i', Ret g) =>
        let r := input [Lit (nl +:+ "Include beta versions? (y/n): ")] i' in
        (banner ++ preflight :: listing ++ t
           ++ EvPrint [Lit (nl +:+ "Selected: "); FStr (name g)] :: r.1.1,
         r.1.2,
         match r.2 with
         | Ret answer => Ret (g, yes answer)
         | Raise e => Raise e
         | Exit c => Exit c
         end)
    | (t, i', Raise e) => (banner ++ preflight :: listing ++ t, i', Raise e)
    | (t, i', Exit c) => (banner ++ preflight :: listing ++ t, i', Exit c)
    end.
Proof.
  intros Hv. unfold choose, print_header, display_gamepads. plumbing. rewrite Hv.
  cbn [display_entries GAMEPADS]. plumbing. cbn [app].
  destruct (select_gamepad i) as [[t i'] [g|e|c]]; [|done|done].
  by destruct i' as [|[s|] i'].
Qed.


Lemma choose_listed : returns (λ chosen, listed chosen.1) (choose w).
Proof.
  unfold choose. do 3 (apply returns_bind; intros ?).
  apply (returns_bind_at listed); [apply select_gamepad_listed|]. intros g Hg.
  do 2 (apply returns_bind; intros ?). by apply returns_ret.
Qed.

Lemma late_stages_no_post fl :
  emits (λ e, is_post e = false)
    (let* firmware_file := download_stage w fl in
     let* device_id := discovery_stage w firmware_file in
     flash_stage w firmware_file device_id).
Proof.
  unfold download_stage, discovery_stage, flash_stage, display_firmware_versions,
    select_firmware, download_firmware, print_instructions, get_gamepad_device_id,
    get_device_id_fallback, flash_firmware, cleanup_firmware_file, print, may_raise.
  hush.
Qed.

Lemma main_assoc i :
  main w i =
    (let* chosen := choose w in
     let* firmware_list := fetch_stage w chosen.1 chosen.2 in
     let* firmware_file := download_stage w firmware_list in
     let* device_id := discovery_stage w firmware_file in
     flash_stage w firmware_file device_id) i.
Proof.
  unfold main, main_to_download, bind.
  destruct (choose w i) as [[t0 i0] [chosen|e|c]]; [|done|done].
  destruct (fetch_stage w chosen.1 chosen.2 i0) as [[t1 i1] [fl|e|c]]; [|done|done].
  destruct (download_stage w fl i1) as [[t2 i2] [file|e|c]]; [|done|done].
  destruct (discovery_stage w file i2) as [[t3 i3] [d|e|c]];
    [|by rewrite <- ?app_assoc|by rewrite <- ?app_assoc].
  destruct (flash_stage w file d i3) as [[t4 i4] r]. by rewrite <- ?app_assoc.
Qed.

(** X16: whatever the input and the outside world, every request for a
    firmware list carries the type of a gamepad of the catalog, a Beta
    header of 0 or 1, and a timeout of 10 seconds. *)
Theorem requests_name_a_listed_gamepad i : Forall catalog_request (program w i).1.
Proof.
  assert (emits catalog_request (guarded_main w)) as H; [|apply H].
  assert (∀ e, is_post e = false → catalog_request e) as Hweak.
  { intros e He Hp. by rewrite He in Hp. }
  unfold guarded_main. apply emits_try.
  2:{ intros e. apply (emits_weaken (λ e, is_post e = false)); [done|]. unfold print. hush. }
  intros i'. rewrite main_assoc. revert i'.
  apply (emits_bind_at _ (λ chosen, listed chosen.1)).
  - eapply emits_weaken; [|apply choose_offline]. intros e [He _]. by apply Hweak.
  - apply choose_listed.
  - intros [g b] [k Hk]. cbn [fst snd]. apply emits_bind.
    + unfold fetch_stage, fetch_firmware_list, print.
      apply emits_bind.
      * apply emits_bind; [apply emits_emit; by apply Hweak|]. intros _.
        apply emits_try.
        -- apply emits_bind.
           { apply emits_emit. intros _. by exists k, g, b. }
           intros _. apply (emits_weaken (λ e, is_post e = false)); [done|]. hush.
        -- intros e. apply (emits_weaken (λ e, is_post e = false)); [done|]. hush.
      * intros fl. apply (emits_weaken (λ e, is_post e = false)); [done|]. hush.
    + intros fl. apply (emits_weaken (λ e, is_post e = false)); [done|].
      apply late_stages_no_post.
Qed.

Lemma main_exits : exits_with [0; 1] (main w).
Proof.
  unfold main, main_to_download, choose, fetch_stage, download_stage, discovery_stage,
    flash_stage, print_header, display_gamepads, select_gamepad, fetch_firmware_list,
    display_firmware_versions, select_firmware, download_firmware, print_instructions,
    get_gamepad_device_id, get_device_id_fallback, flash_firmware,
    cleanup_firmware_file, print, may_raise.
  stay.
Qed.

(** X17: whatever the input and the outside world, a run that ends with an
    exit status ends with 0 or 1, and a run that ends in a stack trace does
    not end in [KeyboardInterrupt]. *)
Theorem exit_status_is_0_or_1 i :
  match (program w i).2 with
  | Exited status => status = 0 ∨ status = 1
  | Traceback e => e ≠ KeyboardInterrupt
  end.
Proof.
  unfold program, guarded_main, try_except. cbn [snd].
  pose proof (main_exits i) as H. unfold result in *.
  destruct (main w i) as [[t i'] [[]|e|c]]; cbn [fst snd finish] in *.
  - by left.
  - destruct e; cbn; try done; by left.
  - specialize (H c eq_refl). apply elem_of_cons in H as [? | H]; [by left|].
    apply elem_of_cons in H as [? | H]; [by right|]. by apply elem_of_nil in H.
Qed.

(** X18: when the check [fwupdmgr --version] fails with
    [CalledProcessError] or [FileNotFoundError], the run prints the header
    and two lines of advice and exits with status 1: nothing is asked and
    no request is made. *)
Theorem missing_fwupd_exits_before_asking e i :
  fwupdmgr_version w = Some e →
  caught_by [CalledProcessError; FileNotFoundError] e = true →
  program w i =
    (banner ++ [ preflight;
                 EvPrint [Lit "Error: fwupd is not installed or not in PATH."];
                 EvPrint [Lit "Please install fwupd first: sudo apt install fwupd"] ],
     Exited 1).
Proof.
  intros Hv He. apply (program_exit _ _ _ i). unfold main.
  apply bind_exit. unfold main_to_download. apply bind_exit.
  unfold choose, print_header. plumbing. rewrite Hv. cbn -[caught_by]. by rewrite He.
Qed.

(** X19: when standard input ends at the gamepad prompt, after any number
    of lines that are no key of the catalog, the run ends in the stack trace
    of [EOFError]: the guard at the bottom of the file handles
    [KeyboardInterrupt] only. *)
Theorem input_running_out_is_a_traceback bad :
  fwupdmgr_version w = None →
  Forall unlisted bad →
  program w (Line <$> bad) =
    (banner ++ preflight :: listing ++ flat_map (λ _, refused) bad ++ [gamepad_prompt],
     Traceback EOFError).
Proof.
  intros Hv Hbad.
  assert (choose w (Line <$> bad) =
            (banner ++ preflight :: listing ++ flat_map (λ _, refused) bad
               ++ [gamepad_prompt], [], Raise EOFError)) as Hc.
  { rewrite (choose_run _ Hv). rewrite <- (app_nil_r (Line <$> bad)).
    by rewrite (select_gamepad_rounds _ _ Hbad). }
  unfold program, guarded_main, try_except, main, main_to_download.
  by rewrite (bind_raise _ _ _ _ _ _ (bind_raise _ _ _ _ _ _ Hc)).
Qed.


(** X20: when Ctrl-C arrives at the gamepad prompt, after any number of
    lines that are no key of the catalog, the guard at the bottom of the
    file prints [Operation cancelled by user.] and the run ends with status
    0; what was typed after it is not read. *)
Theorem interrupt_at_the_prompt_exits_0 bad rest :
  fwupdmgr_version w = None →
  Forall unlisted bad →
  program w ((Line <$> bad) ++ CtrlC :: rest) =
    (banner ++ preflight :: listing ++ flat_map (λ _, refused) bad
       ++ [gamepad_prompt; EvPrint [Lit (nl +:+ nl +:+ "Operation cancelled by user.")]],
     Exited 0).
Proof.
  intros Hv Hbad.
  assert (choose w ((Line <$> bad) ++ CtrlC :: rest) =
            (banner ++ preflight :: listing ++ flat_map (λ _, refused) bad
               ++ [gamepad_prompt], rest, Raise KeyboardInterrupt)) as Hc.
  { rewrite (choose_run _ Hv). by rewrite (select_gamepad_rounds _ _ Hbad). }
  unfold program, guarded_main, try_except, main, main_to_download.
  rewrite (bind_raise _ _ _ _ _ _ (bind_raise _ _ _ _ _ _ Hc)).
  change (caught_by [KeyboardInterrupt] KeyboardInterrupt) with true.
  plumbing. cbn [fst snd trace result finish]. f_equal.
  rewrite <- !app_assoc. cbn [app]. by rewrite <- !app_assoc.
Qed.

(** X21: the program has reached the fetch of the firmware list with
    gamepad [g] and beta answer [b], and the request fails with a
    [RequestException].  Then [Error fetching firmware list: ...] and
    [Failed to fetch firmware list. Exiting.] follow the request and the run
    ends with status 1. *)
Theorem network_error_exits_1 i tr0 i1 g b e :
  choose w i = (tr0, i1, Ret (g, b)) →
  api w (type g) b = inl e →
  caught_by [RequestException] e = true →
  program w i =
    (tr0 ++ asked g b ++
       [ EvPrint [Lit "Error fetching firmware list: "; FExn e];
         EvPrint [Lit "Failed to fetch firmware list. Exiting."] ],
     Exited 1).
Proof.
  intros Hchoose Hapi He. apply (program_exit _ _ _ i1). unfold main.
  apply bind_exit. unfold main_to_download. rewrite (bind_ret _ _ _ _ _ _ Hchoose).
  cbn [fst snd].
  assert (fetch_stage w g b i1 =
            (asked g b ++
               [ EvPrint [Lit "Error fetching firmware list: "; FExn e];
                 EvPrint [Lit "Failed to fetch firmware list. Exiting."] ],
             i1, Exit 1)) as Hf.
  { unfold fetch_stage, fetch_firmware_list. plumbing. rewrite Hapi.
    cbn -[caught_by]. by rewrite He. }
  by rewrite (bind_exit _ _ _ _ _ _ Hf).
Qed.

(** *** Steps 3 and 4 *)

(** X22: once the versions are displayed, a line that is [q] or [Q] with
    white space around it ends the run with [Exiting.] and status 0: nothing
    is downloaded. *)
Theorem quitting_skips_the_download fl fl' tr0 s rest :
  display_firmware_versions fl (Line s :: rest) = (tr0, Line s :: rest, Ret fl') →
  lower (strip s) = "q" →
  download_stage w fl (Line s :: rest) =
    (tr0 ++ [firmware_prompt; EvPrint [Lit "Exiting."]], rest, Exit 0).
Proof.
  intros Hshow Hq. unfold download_stage. rewrite (bind_ret _ _ _ _ _ _ Hshow).
  assert (select_firmware fl' (Line s :: rest) = ([firmware_prompt], rest, Ret JNull))
    as Hsel.
  { unfold select_firmware. apply ask_until_done. by rewrite bool_decide_true. }
  by rewrite (bind_ret _ _ _ _ _ _ Hsel).
Qed.

(** X23: a file that [download_firmware] writes is named by the last
    component of the firmware's [filePathName], and its content is the body
    fetched from the download host under that path. *)
Theorem download_writes_what_it_fetched fw i f c :
  EvWriteFile f c ∈ trace (download_firmware w fw i) →
  ∃ p, get "filePathName" JNull fw = inr (JStr p) ∧
       f = path_name p ∧
       download w (DOWNLOAD_URL +:+ p) = inr c ∧
       write_file w f = None.
Proof.
  unfold download_firmware, trace. plumbing.
  destruct (get "filePathName" JNull fw) as [e|fp]; cbn -[caught_by path_name].
  { by intros ?%elem_of_nil. }
  destruct (truthy fp); cbn -[caught_by path_name].
  2:{ absent. }
  destruct fp as [| | |p| |]; cbn -[caught_by path_name]; try by intros ?%elem_of_nil.
  destruct (download w (DOWNLOAD_URL +:+ p)) as [e|c'] eqn:Hd; cbn -[caught_by path_name].
  { destruct (caught_by [RequestException] e); cbn -[caught_by path_name]; absent. }
  destruct (write_file w (path_name p)) as [e|] eqn:Hw; cbn -[caught_by path_name].
  { destruct (caught_by [RequestException] e); cbn -[caught_by path_name]; absent. }
  rewrite !elem_of_cons, elem_of_nil. intros H. exists p.
  decompose [or] H; try done. by simplify_eq.
Qed.

(** X24: when the request for the firmware file fails with a
    [RequestException], [download_firmware] reports the error and returns
    [None]; no file is written. *)
Theorem failed_download_writes_nothing fw p e i :
  get "filePathName" JNull fw = inr (JStr p) →
  p ≠ "" →
  download w (DOWNLOAD_URL +:+ p) = inl e →
  caught_by [RequestException] e = true →
  download_firmware w fw i =
    (fetching p ++ [EvPrint [Lit "Error downloading firmware: "; FExn e]], i, Ret None).
Proof.
  intros Hp Hne Hd He. unfold download_firmware. plumbing. rewrite Hp. cbn [truthy].
  rewrite bool_decide_false by done. cbn [negb]. rewrite Hd.
  cbn -[caught_by path_name]. by rewrite He.
Qed.

(** X25: when the firmware is fetched but the file cannot be opened or
    written, and the exception is no [RequestException] (an [OSError] is
    none), it leaves [download_firmware]: the handler does not see it. *)
Theorem disk_error_is_a_traceback fw p c e i :
  get "filePathName" JNull fw = inr (JStr p) →
  p ≠ "" →
  download w (DOWNLOAD_URL +:+ p) = inr c →
  write_file w (path_name p) = Some e →
  caught_by [RequestException] e = false →
  download_firmware w fw i = (fetching p, i, Raise e).
Proof.
  intros Hp Hne Hd Hw He. unfold download_firmware. plumbing. rewrite Hp. cbn [truthy].
  rewrite bool_decide_false by done. cbn [negb]. rewrite Hd, Hw.
  cbn -[caught_by path_name]. by rewrite He.
Qed.

(** *** Steps 7 to 9 *)

(** X26: given a device identifier that is a str, [flash_firmware] returns
    [True] exactly when the flashing tool ran and returned status 0. *)
Theorem flash_succeeds_iff_status_0 file d i :
  result (flash_firmware w file (JStr d) i) = Ret true ↔ install_blob w file d = inr 0.
Proof.
  unfold flash_firmware, result. plumbing.
  destruct (install_blob w file d) as [e|rc]; cbn -[caught_by path_name].
  - destruct (caught_by _ e); cbn -[caught_by path_name]; [|done].
    by destruct (isinstance e CalledProcessError).
  - destruct (rc =? 0) eqn:Hrc; cbn -[caught_by path_name].
    + apply Z.eqb_eq in Hrc as ->. done.
    + apply Z.eqb_neq in Hrc. split; [done|]. by intros [= ->].
Qed.

(** X27: after a yes at Step 7, the cleanup question follows the flashing
    tool whether it succeeded or not; then a success ends with the closing
    banner and status 0, a failure with [Update failed ...] and status
    1. *)
Theorem flash_is_followed_by_cleanup file d answer rest tr keep rest' success :
  yes answer = true →
  flash_firmware w file d rest = (tr, Line keep :: rest', Ret success) →
  remove_raises_oserror w file →
  flash_stage w file d (Line answer :: rest) =
    (confirm_prompt :: tr ++ keep_prompt file :: removal w file keep ++ verdict success,
     rest',
     if success then Ret tt else Exit 1).
Proof.
  intros Hyes Hflash Hrm. unfold flash_stage. unfold bind at 1. cbn [input].
  rewrite Hyes. cbn [negb]. rewrite (bind_ret _ _ _ _ _ _ Hflash).
  unfold bind at 1 2 3. rewrite (cleanup_run _ file keep rest' Hrm).
  destruct success; plumbing; rewrite ?(cleanup_run _ file keep rest' Hrm);
    cbn [app fst snd verdict]; by rewrite <- ?app_assoc.
Qed.

(** *** Step 6 *)

Lemma fallback_starts i :
  ∃ t, trace (get_device_id_fallback w i) = EvRun ["fwupdmgr"; "get-devices"] :: t.
Proof.
  unfold get_device_id_fallback, trace. plumbing.
  destruct (devices_text w) as [e|out]; cbn -[caught_by path_name].
  - destruct (caught_by _ e); cbn -[caught_by path_name]; eauto.
  - destruct (scan _ _ _ _ i) as [[t i'] [v|e|c]]; cbn -[caught_by path_name]; eauto.
    destruct (caught_by _ e); cbn -[caught_by path_name]; eauto.
Qed.

(** X28: [get_gamepad_device_id] runs the text listing [fwupdmgr
    get-devices] exactly when the JSON listing could not be parsed: not
    when it was parsed, and not when [fwupdmgr] itself failed. *)
Theorem fallback_runs_on_unparsable_output_only i :
  EvRun ["fwupdmgr"; "get-devices"] ∈ trace (get_gamepad_device_id w i) ↔
  devices_json w = NotJson ∨ devices_json w = Fails JSONDecodeError.
Proof.
  destruct (fallback_starts i) as [t Ht].
  unfold get_gamepad_device_id, trace in *. plumbing.
  destruct (devices_json w) as [j| |e].
  - split; [|by intros [?|?]]. intros Hin. exfalso. revert Hin.
    destruct (get "Devices" (JArr []) j) as [e|ds] eqn:Hget.
    { destruct j; simplify_eq/=; absent. }
    destruct (iter ds) as [e|l] eqn:Hiter.
    { destruct ds; simplify_eq/=; absent. }
    pose proof (search_emits (λ e, e ≠ EvRun ["fwupdmgr"; "get-devices"])
                  ltac:(done) l i) as Hno.
    pose proof (search_raises l i) as Hraise. unfold trace, result in *.
    destruct (search l i) as [[t' i'] [v|e|c]]; cbn in *.
    + intros [? | [? | Hin]%elem_of_cons]%elem_of_cons; try done.
      by apply (proj1 (Forall_forall _ _) Hno) in Hin.
    + rewrite (Hraise e eq_refl). cbn.
      intros [? | [? | Hin]%elem_of_cons]%elem_of_cons; try done.
      by apply (proj1 (Forall_forall _ _) Hno) in Hin.
    + intros [? | [? | Hin]%elem_of_cons]%elem_of_cons; try done.
      by apply (proj1 (Forall_forall _ _) Hno) in Hin.
  - split; [by left|]. intros _.
    change (caught_by [CalledProcessError; JSONDecodeError] JSONDecodeError) with true.
    change (isinstance JSONDecodeError CalledProcessError) with false.
    cbn beta iota.
    destruct (get_device_id_fallback w i) as [[t' i'] r]. cbn in *. subst t'.
    do 3 (apply elem_of_cons; right). apply elem_of_cons. by left.
  - destruct (caught_by [CalledProcessError; JSONDecodeError] e) eqn:Hc.
    + destruct (isinstance e CalledProcessError) eqn:Hi.
      * split; [cbn [app fst snd]; absent|]. by intros [?|[= ->]].
      * assert (e = JSONDecodeError) as -> by by destruct e.
        split; [by right|]. intros _.
        change (caught_by [CalledProcessError; JSONDecodeError] JSONDecodeError)
          with true.
        cbn beta iota.
        destruct (get_device_id_fallback w i) as [[t' i'] r]. cbn in *. subst t'.
        do 3 (apply elem_of_cons; right). apply elem_of_cons. by left.
    + split; [cbn [app fst snd]; absent|]. by intros [?|[= ->]].
Qed.

(** X29: an identifier that the fallback returns is not empty and is what
    follows the label [Device ID:], stripped, on a line of the listing; and
    when no line of the listing mentions [8bitdo], in any case, the fallback
    returns [None] without printing. *)
Theorem fallback_id_comes_from_a_device_line out i :
  devices_text w = inr out →
  match result (get_device_id_fallback w i) with
  | Ret v => v = JNull ∨ ∃ d, v = JStr d ∧ d ≠ "" ∧ device_line (split nl out) d
  | _ => True
  end ∧
  (Forall (λ line, contains "8bitdo" (lower line) = false) (split nl out) →
   get_device_id_fallback w i = ([EvRun ["fwupdmgr"; "get-devices"]], i, Ret JNull)).
Proof.
  intros Hout. split.
  - pose proof (scan_returns (split nl out) (split nl out) 0 None ltac:(done) i) as H.
    unfold get_device_id_fallback, result in *. plumbing. rewrite Hout. cbn beta iota.
    destruct (scan _ _ _ _ i) as [[t i'] [v|e|c]]; cbn [app fst snd] in *; [done| |done].
    destruct (caught_by _ e); cbn [app fst snd]; [by left|done].
  - intros Hall. unfold get_device_id_fallback. plumbing. rewrite Hout. cbn beta iota.
    by rewrite scan_unbranded.
Qed.

End run.



Lemma first_matching_device_wins_witness :
  search [UpdateSamples.intel; JObj UpdateSamples.pad; UpdateSamples.intel] [] =
    (found_device UpdateSamples.pad, [], Ret (JStr "xyz")).
Proof.
  apply (first_matching_device_wins [UpdateSamples.intel] UpdateSamples.pad "8BitDo"
           [UpdateSamples.intel] []).
  - constructor; [|constructor]. by eexists _, "Intel".
  - reflexivity.
  - reflexivity.
Defined.

Lemma missing_fwupd_exits_before_asking_witness :
  program UpdateSamples.no_fwupd Sessions.typed =
    (banner ++ [ preflight;
                 EvPrint [Lit "Error: fwupd is not installed or not in PATH."];
                 EvPrint [Lit "Please install fwupd first: sudo apt install fwupd"] ],
     Exited 1).
Proof.
  apply (missing_fwupd_exits_before_asking UpdateSamples.no_fwupd FileNotFoundError).
  - reflexivity.
  - reflexivity.
Defined.

Lemma input_running_out_is_a_traceback_witness :
  program Sessions.no_device (Line <$> ["0"; "x"]) =
    (banner ++ preflight :: listing ++ flat_map (λ _, refused) ["0"; "x"]
       ++ [gamepad_prompt],
     Traceback EOFError).
Proof.
  apply (input_running_out_is_a_traceback Sessions.no_device ["0"; "x"]).
  - reflexivity.
  - repeat constructor.
Defined.

Lemma interrupt_at_the_prompt_exits_0_witness :
  program Sessions.no_device ((Line <$> ["0"]) ++ CtrlC :: [Line "12"]) =
    (banner ++ preflight :: listing ++ flat_map (λ _, refused) ["0"]
       ++ [gamepad_prompt; EvPrint [Lit (nl +:+ nl +:+ "Operation cancelled by user.")]],
     Exited 0).
Proof.
  apply (interrupt_at_the_prompt_exits_0 Sessions.no_device ["0"] [Line "12"]).
  - reflexivity.
  - repeat constructor.
Defined.

Lemma network_error_exits_1_witness :
  program UpdateSamples.unreachable Sessions.typed =
    ((choose UpdateSamples.unreachable Sessions.typed).1.1
       ++ asked {| name := "Pro 2"; type := 33 |} false ++
       [ EvPrint [Lit "Error fetching firmware list: "; FExn RequestException];
         EvPrint [Lit "Failed to fetch firmware list. Exiting."] ],
     Exited 1).
Proof.
  apply (network_error_exits_1 UpdateSamples.unreachable Sessions.typed _
           [Line "1"; Line ""; Line "n"] _ _ RequestException).
  - vm_compute. reflexivity.
  - reflexivity.
  - reflexivity.
Defined.

Lemma quitting_skips_the_download_witness :
  download_stage Sessions.no_device (JArr [Sessions.firmware]) [Line " Q "] =
    ((display_firmware_versions (JArr [Sessions.firmware]) []).1.1
       ++ [firmware_prompt; EvPrint [Lit "Exiting."]],
     [], Exit 0).
Proof.
  apply (quitting_skips_the_download Sessions.no_device (JArr [Sessions.firmware])
           (JArr [Sessions.firmware])).
  - vm_compute. reflexivity.
  - reflexivity.
Defined.

Lemma download_writes_what_it_fetched_witness :
  ∃ p, get "filePathName" JNull Sessions.firmware = inr (JStr p) ∧
       "a.dat" = path_name p ∧
       download Sessions.no_device (DOWNLOAD_URL +:+ p) = inr "BLOB" ∧
       write_file Sessions.no_device "a.dat" = None.
Proof.
  apply (download_writes_what_it_fetched Sessions.no_device Sessions.firmware []).
  apply (list_elem_of_lookup_2 _ 2). vm_compute. reflexivity.
Defined.

Lemma failed_download_writes_nothing_witness :
  download_firmware UpdateSamples.broken_link Sessions.firmware [] =
    (fetching "/firmware/a.dat"
       ++ [EvPrint [Lit "Error downloading firmware: "; FExn RequestException]],
     [], Ret None).
Proof.
  apply (failed_download_writes_nothing UpdateSamples.broken_link Sessions.firmware).
  - reflexivity.
  - done.
  - reflexivity.
  - reflexivity.
Defined.

Lemma disk_error_is_a_traceback_witness :
  download_firmware UpdateSamples.full_disk Sessions.firmware [] =
    (fetching "/firmware/a.dat", [], Raise OSError).
Proof.
  apply (disk_error_is_a_traceback UpdateSamples.full_disk Sessions.firmware
           "/firmware/a.dat" "BLOB").
  - reflexivity.
  - done.
  - reflexivity.
  - reflexivity.
  - reflexivity.
Defined.

Lemma flash_is_followed_by_cleanup_witness :
  flash_stage Sessions.no_device "a.dat" (JStr "abc") [Line "y"; Line "n"] =
    (confirm_prompt
       :: (flash_firmware Sessions.no_device "a.dat" (JStr "abc") [Line "n"]).1.1
       ++ keep_prompt "a.dat" :: removal Sessions.no_device "a.dat" "n" ++ verdict true,
     [], Ret tt).
Proof.
  apply (flash_is_followed_by_cleanup Sessions.no_device "a.dat" (JStr "abc") "y"
           [Line "n"] _ "n" [] true).
  - reflexivity.
  - vm_compute. reflexivity.
  - exact I.
Defined.

Lemma fallback_id_comes_from_a_device_line_witness :
  JStr "abc123" = JNull ∨
  ∃ d, JStr "abc123" = JStr d ∧ d ≠ "" ∧
       device_line (split nl ("8BitDo Pro 2" +:+ nl +:+ "  Device ID:  abc123 ")) d.
Proof.
  exact (proj1 (fallback_id_comes_from_a_device_line UpdateSamples.broken_link
                  ("8BitDo Pro 2" +:+ nl +:+ "  Device ID:  abc123 ") [] eq_refl)).
Defined.

End UpdaterCases.
